(** * GitShift: the repository webview provider

    A shallow embedding of [src/repositoryWebview.ts]: the
    [RepositoryProvider] class (extension side) and the script it ships to
    the webview (client side).

    The extension side is asynchronous: every handler is an [async]
    function that runs synchronously up to its next [await], is suspended
    while the awaited call is outstanding, and is resumed when the call
    settles.  Handlers are embedded as resumable programs ([Prog]) over the
    provider's fields; the event loop ([step]) starts a handler for each
    host event and resumes one suspended handler per settled call, so that
    overlapping handlers interleave exactly at their [await]s.

    Conventions of the model:
    - strings are sequences of 8-bit code units (Latin-1), numbers are [Z];
    - [Date.now()] reads a clock that only [Tick] advances, and a timeout
      fires when the clock reaches its due time;
    - the git operations, the message generator and the dialogs are an
      environment that decides how each awaited call settles;
    - assigning [webview.html] replaces the page: the new document starts
      with no element loading;
    - the webview script is embedded as functions on the state of the page
      ([Client]).

    Limits of the model:
    - what a call rejects with is an error object, carrying a [message];
      a rejection with [null] or [undefined], for which reading
      [error.message] in a [catch] throws in turn, is not represented;
    - [workspaceFolders] is read as one boolean, some folder being open;
      a list that is defined and empty, which [_handleOpenDiff] alone
      treats differently from an undefined one (it goes on and throws at
      [workspaceFolders[0].uri]), is not represented;
    - [CommitDetailsPanel.show] is called without [await] inside a [try];
      it is embedded as an awaited call, so that its failure reaches the
      [catch], at the price of a suspension that the source does not have;
    - the page is handed the paths and branch names of the status as they
      are; the markup writes them into attributes ([data-file], [onclick])
      with little or no escaping, so names containing quotes, backslashes
      or character references may reach the script altered. *)

From Stdlib Require Import ZArith List String Ascii Bool Lia DecimalString.
Import ListNotations.

Local Open Scope string_scope.
Local Open Scope Z_scope.

(* ------------------------------------------------------------------ *)
(** ** String primitives of the host language                          *)
(* ------------------------------------------------------------------ *)

Module Js.

(** White space as [String.prototype.trim] sees it, within Latin-1:
    TAB, LF, VT, FF, CR, SPACE and NBSP. *)
Definition isWhiteSpace (c : ascii) : bool :=
  let n := nat_of_ascii c in
  ((9 <=? n) && (n <=? 13) || (n =? 32) || (n =? 160))%nat.

Fixpoint trimStart (s : string) : string :=
  match s with
  | EmptyString => EmptyString
  | String c s' => if isWhiteSpace c then trimStart s' else s
  end.

Fixpoint trimEnd (s : string) : string :=
  match s with
  | EmptyString => EmptyString
  | String c s' =>
      match trimEnd s' with
      | EmptyString => if isWhiteSpace c then EmptyString else String c EmptyString
      | t => String c t
      end
  end.

(** [s.trim()] *)
Definition trim (s : string) : string := trimEnd (trimStart s).

(** Truthiness of a string value: only the empty string is falsy. *)
Definition truthy (s : string) : bool := negb (s =? "")%string.

Fixpoint allWhiteSpace (s : string) : bool :=
  match s with
  | EmptyString => true
  | String c s' => isWhiteSpace c && allWhiteSpace s'
  end.

(** Case folding of the [i] flag, restricted to ASCII letters. *)
Definition toLower (c : ascii) : ascii :=
  let n := nat_of_ascii c in
  if ((65 <=? n) && (n <=? 90))%nat then ascii_of_nat (n + 32) else c.

(** [pat] (given in lower case) matches at the start of [s], ignoring case. *)
Fixpoint startsWithCI (pat s : string) : bool :=
  match pat, s with
  | EmptyString, _ => true
  | String _ _, EmptyString => false
  | String p pat', String c s' => Ascii.eqb p (toLower c) && startsWithCI pat' s'
  end.

(** [/pat/i.test(s)] for a literal [pat]: a match anywhere. *)
Fixpoint includesCI (pat s : string) : bool :=
  startsWithCI pat s ||
  match s with
  | EmptyString => false
  | String _ s' => includesCI pat s'
  end.

(** [/pat$/i.test(s)] for a literal [pat]: a match reaching the end. *)
Fixpoint endsWithCI (pat s : string) : bool :=
  (startsWithCI pat s && (String.length s =? String.length pat)%nat) ||
  match s with
  | EmptyString => false
  | String _ s' => endsWithCI pat s'
  end.

(** [s.split(sep)] for a one-character separator. *)
Fixpoint split (sep : ascii) (s : string) : list string :=
  match s with
  | EmptyString => [EmptyString]
  | String c s' =>
      if Ascii.eqb c sep then EmptyString :: split sep s'
      else match split sep s' with
           | seg :: rest => String c seg :: rest
           | [] => [String c EmptyString]
           end
  end.

(** [a.pop()] read as a value: the last element. *)
Definition pop (a : list string) : string := last a EmptyString.

(** [a.join(sep)] *)
Definition join (sep : string) (a : list string) : string := String.concat sep a.

(** [a.slice(0, n)] *)
Definition slice0 {A} (n : nat) (a : list A) : list A := firstn n a.

(** [a.includes(x)] on strings. *)
Definition includes (a : list string) (x : string) : bool :=
  existsb (String.eqb x) a.

(** Decimal rendering of a length inside a template literal. *)
Definition ofNat (n : nat) : string := NilEmpty.string_of_uint (Nat.to_uint n).

Definition isAlphaNum (c : ascii) : bool :=
  let n := nat_of_ascii c in
  ((48 <=? n) && (n <=? 57) || (65 <=? n) && (n <=? 90) || (97 <=? n) && (n <=? 122))%nat.

(** [s.replace(/[^a-zA-Z0-9]/g, '-')] *)
Fixpoint dashed (s : string) : string :=
  match s with
  | EmptyString => EmptyString
  | String c s' => String (if isAlphaNum c then c else "-"%char) (dashed s')
  end.

End Js.

(* ------------------------------------------------------------------ *)
(** ** Data of the git layer ([./gitOperations])                       *)
(* ------------------------------------------------------------------ *)

(** The fields of [GitStatus], [Branch] and [CommitInfo] that the
    provider reads. *)
Record GitStatus := {
  branch : string;
  ahead : Z;
  behind : Z;
  staged : list string;
  unstaged : list string;
  untracked : list string
}.

Record Branch := {
  name : string;
  current : bool;
  remote : bool
}.

Record CommitInfo := {
  hash : string;
  author : string;
  date : string;
  message : string;
  refs : string
}.

(** A thrown value: its [name] and [message], and whether it is an
    instance of [LanguageModelGenerationError]. *)
Record JsError := {
  err_name : string;
  err_message : string;
  err_isLM : bool
}.

Definition TypeError (msg : string) : JsError :=
  {| err_name := "TypeError"; err_message := msg; err_isLM := false |}.

(** [error instanceof LanguageModelGenerationError ||
     error.name === 'LanguageModelGenerationError'] *)
Definition isLanguageModelGenerationError (error : JsError) : bool :=
  err_isLM error || (err_name error =? "LanguageModelGenerationError")%string.

(** What the document built by [_getHtmlContent] depends on. *)
Record Page := {
  pg_isGitRepo : bool;
  pg_status : option GitStatus;
  pg_localBranches : list Branch;
  pg_remoteBranches : list Branch;
  pg_currentBranch : string;
  pg_commits : list CommitInfo;
  pg_activeTab : string
}.

Inductive Html :=
| LoadingHtml            (* [_getLoadingHtml()] *)
| ContentHtml (page : Page).

(* ------------------------------------------------------------------ *)
(** ** The provider's fields                                           *)
(* ------------------------------------------------------------------ *)

Record Provider := {
  _view : bool;                          (* [_view] is set *)
  _fileWatcher : bool;                   (* [_fileWatcher] is set *)
  _refreshTimeout : option nat;          (* timer handle *)
  _isVisible : bool;
  _cachedStatus : option GitStatus;
  _lastRefresh : Z;
  _activeTab : string;
  _commitsLimit : Z;
  _generationCancelToken : option nat    (* cancellation source handle *)
}.

(** The field initialisers of the class. *)
Definition newProvider : Provider := {|
  _view := false;
  _fileWatcher := false;
  _refreshTimeout := None;
  _isVisible := false;
  _cachedStatus := None;
  _lastRefresh := 0;
  _activeTab := "changes";
  _commitsLimit := 20;
  _generationCancelToken := None
|}.

Definition set_view (v : bool) (p : Provider) : Provider :=
  {| _view := v; _fileWatcher := _fileWatcher p; _refreshTimeout := _refreshTimeout p;
     _isVisible := _isVisible p; _cachedStatus := _cachedStatus p;
     _lastRefresh := _lastRefresh p; _activeTab := _activeTab p;
     _commitsLimit := _commitsLimit p;
     _generationCancelToken := _generationCancelToken p |}.

Definition set_fileWatcher (v : bool) (p : Provider) : Provider :=
  {| _view := _view p; _fileWatcher := v; _refreshTimeout := _refreshTimeout p;
     _isVisible := _isVisible p; _cachedStatus := _cachedStatus p;
     _lastRefresh := _lastRefresh p; _activeTab := _activeTab p;
     _commitsLimit := _commitsLimit p;
     _generationCancelToken := _generationCancelToken p |}.

Definition set_refreshTimeout (v : option nat) (p : Provider) : Provider :=
  {| _view := _view p; _fileWatcher := _fileWatcher p; _refreshTimeout := v;
     _isVisible := _isVisible p; _cachedStatus := _cachedStatus p;
     _lastRefresh := _lastRefresh p; _activeTab := _activeTab p;
     _commitsLimit := _commitsLimit p;
     _generationCancelToken := _generationCancelToken p |}.

Definition set_isVisible (v : bool) (p : Provider) : Provider :=
  {| _view := _view p; _fileWatcher := _fileWatcher p; _refreshTimeout := _refreshTimeout p;
     _isVisible := v; _cachedStatus := _cachedStatus p;
     _lastRefresh := _lastRefresh p; _activeTab := _activeTab p;
     _commitsLimit := _commitsLimit p;
     _generationCancelToken := _generationCancelToken p |}.

Definition set_cachedStatus (v : option GitStatus) (p : Provider) : Provider :=
  {| _view := _view p; _fileWatcher := _fileWatcher p; _refreshTimeout := _refreshTimeout p;
     _isVisible := _isVisible p; _cachedStatus := v;
     _lastRefresh := _lastRefresh p; _activeTab := _activeTab p;
     _commitsLimit := _commitsLimit p;
     _generationCancelToken := _generationCancelToken p |}.

Definition set_lastRefresh (v : Z) (p : Provider) : Provider :=
  {| _view := _view p; _fileWatcher := _fileWatcher p; _refreshTimeout := _refreshTimeout p;
     _isVisible := _isVisible p; _cachedStatus := _cachedStatus p;
     _lastRefresh := v; _activeTab := _activeTab p;
     _commitsLimit := _commitsLimit p;
     _generationCancelToken := _generationCancelToken p |}.

Definition set_activeTab (v : string) (p : Provider) : Provider :=
  {| _view := _view p; _fileWatcher := _fileWatcher p; _refreshTimeout := _refreshTimeout p;
     _isVisible := _isVisible p; _cachedStatus := _cachedStatus p;
     _lastRefresh := _lastRefresh p; _activeTab := v;
     _commitsLimit := _commitsLimit p;
     _generationCancelToken := _generationCancelToken p |}.

Definition set_commitsLimit (v : Z) (p : Provider) : Provider :=
  {| _view := _view p; _fileWatcher := _fileWatcher p; _refreshTimeout := _refreshTimeout p;
     _isVisible := _isVisible p; _cachedStatus := _cachedStatus p;
     _lastRefresh := _lastRefresh p; _activeTab := _activeTab p;
     _commitsLimit := v;
     _generationCancelToken := _generationCancelToken p |}.

Definition set_generationCancelToken (v : option nat) (p : Provider) : Provider :=
  {| _view := _view p; _fileWatcher := _fileWatcher p; _refreshTimeout := _refreshTimeout p;
     _isVisible := _isVisible p; _cachedStatus := _cachedStatus p;
     _lastRefresh := _lastRefresh p; _activeTab := _activeTab p;
     _commitsLimit := _commitsLimit p;
     _generationCancelToken := v |}.

(* ------------------------------------------------------------------ *)
(** ** Calls, effects and resumable programs                           *)
(* ------------------------------------------------------------------ *)

(** The asynchronous operations a handler awaits, indexed by the type of
    the value they resolve to.  The git operations and the message
    generator are imported by the provider; the rest is the editor API. *)
Inductive Call : Type -> Type :=
| isGitRepository : Call bool
| getGitStatus : Call GitStatus
| stageFiles (files : list string) : Call unit
| stageAll : Call unit
| unstageFiles (files : list string) : Call unit
| commit (msg : string) : Call unit
| push : Call unit
| pull : Call unit
| fetch : Call unit
| discardChanges (files : list string) : Call unit
| getBranches : Call (list Branch)
| getCurrentBranch : Call string
| createBranch (branchName : string) : Call unit
| checkoutBranch (branchName : string) : Call unit
| deleteBranch (branchName : string) : Call unit
| getCommitHistory (limit : Z) : Call (list CommitInfo)
| generateDetailedCommitMessage (status : GitStatus) (token : nat) : Call string
| showWarningMessage (text : string) (modal : bool) (items : list string)
    : Call (option string)
| showErrorMessage (text : string) (items : list string) : Call (option string)
| fsStat (file : string) : Call unit
| executeCommand (command file : string) : Call unit
| showTextDocument (file : string) : Call unit
| CommitDetailsPanel_show (commitHash : string) : Call unit.

(** How an awaited call settles. *)
Inductive Outcome (R : Type) : Type :=
| Resolved (r : R)
| Rejected (error : JsError).
Arguments Resolved {R} r.
Arguments Rejected {R} error.

(** Messages posted to the webview, by their [type]. *)
Module Post.
Inductive t :=
| clearLoading (buttonId : string)
| clearAllLoading
| commitMessageGenerated (text : string).
End Post.

(** What the host observes, in order. *)
Inductive Effect :=
| PostMessage (m : Post.t)          (* [_view.webview.postMessage] *)
| SetHtml (html : Html)                     (* [_view.webview.html = ...] *)
| ShowInformationMessage (text : string)    (* not awaited *)
| ShowWarningMessage (text : string)        (* not awaited *)
| ShowErrorMessage (text : string) (modal : bool)   (* not awaited *)
| Invoke {R} (c : Call R)                   (* an awaited call is issued *)
| TimeoutFired (id : nat) (time : Z).       (* a [setTimeout] callback starts *)

(** The synchronous operations of a handler. *)
Inductive Action : Type -> Type :=
| GetThis : Action Provider
| Assign (f : Provider -> Provider) : Action unit
| DateNow : Action Z
| Do (e : Effect) : Action unit
| NewCancellationTokenSource : Action nat
| Cancel (source : nat) : Action unit
| DisposeSource (source : nat) : Action unit
| SetTimeout (ms : Z) : Action nat
| ClearTimeout (id : nat) : Action unit
| CreateFileSystemWatcher : Action unit
| DisposeWatcher : Action unit
| WorkspaceFolders : Action bool.

(** An [async] body: it returns, throws, performs a synchronous action, or
    suspends on a call and continues with its outcome. *)
Inductive Prog (A : Type) : Type :=
| Ret (a : A)
| Throw (error : JsError)
| Act {X} (a : Action X) (k : X -> Prog A)
| Await {R} (c : Call R) (k : Outcome R -> Prog A).
Arguments Ret {A} a.
Arguments Throw {A} error.
Arguments Act {A X} a k.
Arguments Await {A R} c k.

Fixpoint bind {A B} (p : Prog A) (f : A -> Prog B) : Prog B :=
  match p with
  | Ret a => f a
  | Throw e => Throw e
  | Act a k => Act a (fun x => bind (k x) f)
  | Await c k => Await c (fun o => bind (k o) f)
  end.

(** [try { p } catch (error) { h error }] *)
Fixpoint try_catch {A} (p : Prog A) (h : JsError -> Prog A) : Prog A :=
  match p with
  | Ret a => Ret a
  | Throw e => h e
  | Act a k => Act a (fun x => try_catch (k x) h)
  | Await c k => Await c (fun o => try_catch (k o) h)
  end.

(** [try { p } finally { fin }] *)
Fixpoint try_finally {A} (p : Prog A) (fin : Prog unit) : Prog A :=
  match p with
  | Ret a => bind fin (fun _ => Ret a)
  | Throw e => bind fin (fun _ => Throw e)
  | Act a k => Act a (fun x => try_finally (k x) fin)
  | Await c k => Await c (fun o => try_finally (k o) fin)
  end.

Declare Scope prog_scope.
Delimit Scope prog_scope with prog.
Bind Scope prog_scope with Prog.
Notation "x <- p ;; q" := (bind p (fun x => q))
  (at level 61, p at next level, right associativity) : prog_scope.
Notation "p ;; q" := (bind p (fun _ => q))
  (at level 61, right associativity) : prog_scope.
Local Open Scope prog_scope.

Definition act {X} (a : Action X) : Prog X := Act a Ret.

(** [await c]: the resolved value, or the rejection rethrown. *)
Definition await {R} (c : Call R) : Prog R :=
  Await c (fun o => match o with
                    | Resolved r => Ret r
                    | Rejected e => Throw e
                    end).

Definition this : Prog Provider := act GetThis.
Definition assign (f : Provider -> Provider) : Prog unit := act (Assign f).
Definition effect (e : Effect) : Prog unit := act (Do e).
Definition skip : Prog unit := Ret tt.

(** [if (this._view) { this._view.webview.postMessage(m); }] *)
Definition postMessageIfView (m : Post.t) : Prog unit :=
  self <- this ;;
  if _view self then effect (PostMessage m) else skip.

(** Inbound messages of the webview, by their [type]. *)
Module Msg.
Inductive t :=
| switchTab (tab : string)
| refresh
| stageAll
| stageFile (file : string)
| unstageFile (file : string)
| commit (msg : string)
| commitAndPush (msg : string)
| push
| pull
| fetch
| discard (file : string)
| openDiff (file : string)
| createBranch (branchName : string)
| switchBranch (branchName : string)
| deleteBranch (branchName : string)
| loadMore
| openCommitDiff (commitHash : string)
| generateCommitMessage
| stopGeneration
| other (type : string).     (* no [case] matches *)
End Msg.

(* ------------------------------------------------------------------ *)
(** ** The methods of [RepositoryProvider]                             *)
(* ------------------------------------------------------------------ *)

Section Provider.

(** [generateFallbackMessage] of [./commitMessageGenerator]: a synchronous
    function of the status. *)
Variable generateFallbackMessage : GitStatus -> string.

(** [_getHtmlContent]: the [try] block assigns its locals one call at a
    time, and the silent [catch] keeps what was assigned so far. *)
Definition _getHtmlContent : Prog Html :=
  let render isGitRepo status branches currentBranch commits : Prog Html :=
    self <- this ;;
    Ret (ContentHtml
           {| pg_isGitRepo := isGitRepo;
              pg_status := status;
              pg_localBranches := filter (fun b => negb (remote b)) branches;
              pg_remoteBranches := filter (fun b => remote b) branches;
              pg_currentBranch := currentBranch;
              pg_commits := commits;
              pg_activeTab := _activeTab self |}) in
  let afterStatus (status : GitStatus) : Prog Html :=
    Await getBranches (fun o =>
      match o with
      | Rejected _ => render true (Some status) [] "" []
      | Resolved branches =>
        Await getCurrentBranch (fun o =>
          match o with
          | Rejected _ => render true (Some status) branches "" []
          | Resolved currentBranch =>
            self <- this ;;
            Await (getCommitHistory (_commitsLimit self)) (fun o =>
              match o with
              | Rejected _ => render true (Some status) branches currentBranch []
              | Resolved commits =>
                  render true (Some status) branches currentBranch commits
              end)
          end)
      end) in
  let fetchStatus : Prog Html :=
    Await getGitStatus (fun o =>
      match o with
      | Rejected _ => render true None [] "" []
      | Resolved status =>
          assign (set_cachedStatus (Some status)) ;;
          afterStatus status
      end) in
  Await isGitRepository (fun o =>
    match o with
    | Rejected _ => render false None [] "" []
    | Resolved false => render false None [] "" []
    | Resolved true =>
        self <- this ;;
        now <- act DateNow ;;
        match _cachedStatus self with
        | Some cached =>
            if now - _lastRefresh self <? 2000 then afterStatus cached
            else fetchStatus
        | None => fetchStatus
        end
    end).

Definition _loadContent : Prog unit :=
  self <- this ;;
  if negb (_view self) then skip
  else if negb (_isVisible self) && (0 <? _lastRefresh self) then skip
  else
    now <- act DateNow ;;
    assign (set_lastRefresh now) ;;
    html <- _getHtmlContent ;;
    effect (SetHtml html).

Definition refresh : Prog unit :=
  assign (set_cachedStatus None) ;;
  _loadContent.

(** The callback that [debouncedRefresh] hands to [setTimeout]. *)
Definition refreshTimeoutCallback : Prog unit :=
  assign (set_cachedStatus None) ;;
  self <- this ;;
  if _isVisible self then refresh else skip.

Definition debouncedRefresh : Prog unit :=
  self <- this ;;
  match _refreshTimeout self with
  | Some id => act (ClearTimeout id)
  | None => skip
  end ;;
  id <- act (SetTimeout 1000) ;;
  assign (set_refreshTimeout (Some id)).

Definition startFileWatcher : Prog unit :=
  self <- this ;;
  (if _fileWatcher self
   then act DisposeWatcher ;; assign (set_fileWatcher false)
   else skip) ;;
  workspaceFolders <- act WorkspaceFolders ;;
  if negb workspaceFolders then skip
  else
    act CreateFileSystemWatcher ;;
    assign (set_fileWatcher true).

Definition dispose : Prog unit :=
  self <- this ;;
  (if _fileWatcher self then act DisposeWatcher else skip) ;;
  match _refreshTimeout self with
  | Some id => act (ClearTimeout id)
  | None => skip
  end.

Definition _handleStageAll : Prog unit :=
  await stageAll ;;
  effect (ShowInformationMessage "All changes staged") ;;
  refresh.

Definition _handleStageFile (file : string) : Prog unit :=
  await (stageFiles [file]) ;;
  refresh.

Definition _handleUnstageFile (file : string) : Prog unit :=
  await (unstageFiles [file]) ;;
  refresh.

(** [!message || !message.trim()] *)
Definition isBlank (s : string) : bool :=
  negb (Js.truthy s) || negb (Js.truthy (Js.trim s)).

Definition _handleCommit (msg : string) : Prog unit :=
  if isBlank msg then
    effect (ShowWarningMessage "Commit message cannot be empty") ;;
    postMessageIfView (Post.clearLoading "commitBtn")
  else
    await (commit msg) ;;
    effect (ShowInformationMessage "Changes committed") ;;
    refresh ;;
    postMessageIfView (Post.clearLoading "commitBtn").

Definition _handleCommitAndPush (msg : string) : Prog unit :=
  if isBlank msg then
    effect (ShowWarningMessage "Commit message cannot be empty") ;;
    postMessageIfView (Post.clearLoading "commitPushBtn")
  else
    await (commit msg) ;;
    effect (ShowInformationMessage "Changes committed") ;;
    await push ;;
    effect (ShowInformationMessage "Pushed to remote") ;;
    refresh ;;
    postMessageIfView (Post.clearLoading "commitPushBtn").

(** The two [catch] branches of [_handleGenerateCommitMessage] differ only
    in the dialog they await. *)
Definition offerFallback (dialog : Call (option string)) : Prog unit :=
  status <- await getGitStatus ;;
  result <- await dialog ;;
  (match result with
   | Some choice =>
       if (choice =? "Yes")%string
       then postMessageIfView (Post.commitMessageGenerated (generateFallbackMessage status))
       else skip
   | None => skip
   end) ;;
  postMessageIfView (Post.clearLoading "generateMsgBtn").

Definition _handleGenerateCommitMessage : Prog unit :=
  self <- this ;;
  if negb (_view self) then skip
  else
    source <- act NewCancellationTokenSource ;;
    assign (set_generationCancelToken (Some source)) ;;
    try_finally
      (try_catch
         (status <- await getGitStatus ;;
          self <- this ;;
          match _generationCancelToken self with
          | None =>
              Throw (TypeError "Cannot read properties of undefined (reading 'token')")
          | Some token =>
              text <- await (generateDetailedCommitMessage status token) ;;
              effect (PostMessage (Post.commitMessageGenerated text)) ;;
              effect (PostMessage (Post.clearLoading "generateMsgBtn"))
          end)
         (fun error =>
            if isLanguageModelGenerationError error then
              offerFallback
                (showWarningMessage
                   "AI commit message generation is not available. Would you like a simple message based on file names?"
                   false ["Yes"])
            else
              offerFallback
                (showErrorMessage
                   ("Failed to generate AI commit message: "
                    ++ (if Js.truthy (err_message error)
                        then err_message error else "Unknown error")
                    ++ ". Would you like a simple message?")
                   ["Yes"; "Cancel"])))
      (self <- this ;;
       match _generationCancelToken self with
       | Some source =>
           act (DisposeSource source) ;;
           assign (set_generationCancelToken None)
       | None => skip
       end).

Definition _handleStopGeneration : Prog unit :=
  self <- this ;;
  match _generationCancelToken self with
  | Some source => act (Cancel source)
  | None => skip
  end ;;
  postMessageIfView (Post.clearLoading "generateMsgBtn").

Definition _handlePush : Prog unit :=
  await push ;;
  effect (ShowInformationMessage "Pushed to remote") ;;
  refresh ;;
  postMessageIfView (Post.clearLoading "pushBtn").

Definition _handlePull : Prog unit :=
  await pull ;;
  effect (ShowInformationMessage "Pulled from remote") ;;
  refresh ;;
  postMessageIfView (Post.clearLoading "pullBtn").

Definition _handleFetch : Prog unit :=
  await fetch ;;
  effect (ShowInformationMessage "Fetched from remote") ;;
  refresh ;;
  postMessageIfView (Post.clearLoading "fetchBtn").

Definition chose (answer : option string) (item : string) : bool :=
  match answer with
  | Some choice => (choice =? item)%string
  | None => false
  end.

Definition _handleDiscard (file : string) : Prog unit :=
  confirm <- await (showWarningMessage ("Discard changes in '" ++ file ++ "'?")
                                       true ["Discard"]) ;;
  if chose confirm "Discard" then
    await (discardChanges [file]) ;;
    effect (ShowInformationMessage "Changes discarded") ;;
    refresh
  else skip.

Definition _handleOpenDiff (file : string) : Prog unit :=
  workspaceFolders <- act WorkspaceFolders ;;
  if negb workspaceFolders then skip
  else
    try_catch
      (await (fsStat file) ;;
       try_catch
         (await (executeCommand "git.openChange" file))
         (fun _ => await (executeCommand "vscode.diff" file)))
      (fun _ =>
         try_catch
           (await (showTextDocument file))
           (fun openError =>
              effect (ShowErrorMessage
                        ("Failed to open file: " ++ err_message openError) false))).

Definition _handleCreateBranch (branchName : string) : Prog unit :=
  if isBlank branchName then
    effect (ShowWarningMessage "Branch name cannot be empty")
  else
    await (createBranch branchName) ;;
    effect (ShowInformationMessage ("Branch '" ++ branchName ++ "' created")) ;;
    refresh.

Definition _handleSwitchBranch (branchName : string) : Prog unit :=
  await (checkoutBranch branchName) ;;
  effect (ShowInformationMessage ("Switched to branch '" ++ branchName ++ "'")) ;;
  refresh.

Definition _handleDeleteBranch (branchName : string) : Prog unit :=
  confirm <- await (showWarningMessage ("Delete branch '" ++ branchName ++ "'?")
                                       true ["Delete"]) ;;
  if chose confirm "Delete" then
    await (deleteBranch branchName) ;;
    effect (ShowInformationMessage ("Branch '" ++ branchName ++ "' deleted")) ;;
    refresh
  else skip.

Definition _handleLoadMore : Prog unit :=
  assign (set_commitsLimit 50) ;;
  _loadContent.

Definition _handleOpenCommitDiff (commitHash : string) : Prog unit :=
  try_catch
    (await (CommitDetailsPanel_show commitHash))
    (fun error =>
       effect (ShowErrorMessage ("Failed to open commit: " ++ err_message error) false)).

(** [data.type === 'push' || data.type === 'commitAndPush'] *)
Definition isPushError (data : Msg.t) : bool :=
  match data with
  | Msg.push | Msg.commitAndPush _ => true
  | _ => false
  end.

(** The listener registered with [webview.onDidReceiveMessage]. *)
Definition onDidReceiveMessage (data : Msg.t) : Prog unit :=
  try_catch
    (match data with
     | Msg.switchTab tab => assign (set_activeTab tab)
     | Msg.refresh => refresh ;; postMessageIfView (Post.clearLoading "refreshBtn")
     | Msg.stageAll => _handleStageAll
     | Msg.stageFile file => _handleStageFile file
     | Msg.unstageFile file => _handleUnstageFile file
     | Msg.commit msg => _handleCommit msg
     | Msg.commitAndPush msg => _handleCommitAndPush msg
     | Msg.push => _handlePush
     | Msg.pull => _handlePull
     | Msg.fetch => _handleFetch
     | Msg.discard file => _handleDiscard file
     | Msg.openDiff file => _handleOpenDiff file
     | Msg.createBranch branchName => _handleCreateBranch branchName
     | Msg.switchBranch branchName => _handleSwitchBranch branchName
     | Msg.deleteBranch branchName => _handleDeleteBranch branchName
     | Msg.loadMore => _handleLoadMore
     | Msg.openCommitDiff commitHash => _handleOpenCommitDiff commitHash
     | Msg.generateCommitMessage => _handleGenerateCommitMessage
     | Msg.stopGeneration => _handleStopGeneration
     | Msg.other _ => skip
     end)
    (fun error =>
       effect (ShowErrorMessage ("GitShift: " ++ err_message error) (isPushError data)) ;;
       postMessageIfView Post.clearAllLoading).

(** The listener registered with [webviewView.onDidChangeVisibility];
    [visible] is [webviewView.visible] when it runs. *)
Definition onDidChangeVisibility (visible : bool) : Prog unit :=
  assign (set_isVisible visible) ;;
  self <- this ;;
  now <- act DateNow ;;
  if _isVisible self && (2000 <? now - _lastRefresh self) then _loadContent
  else skip.

Definition resolveWebviewView (visible : bool) : Prog unit :=
  assign (set_view true) ;;
  assign (set_isVisible visible) ;;
  effect (SetHtml LoadingHtml) ;;
  self <- this ;;
  if _isVisible self then _loadContent else skip.

End Provider.

(* ------------------------------------------------------------------ *)
(** ** The event loop                                                  *)
(* ------------------------------------------------------------------ *)

Local Open Scope list_scope.

(** A [CancellationTokenSource]. *)
Record TokenSource := {
  cancelled : bool;
  disposed : bool
}.

(** A handler suspended on a call. *)
Inductive Task :=
| Pending {R} (c : Call R) (k : Outcome R -> Prog unit).

(** Where a program stops when it is run up to its next [await]. *)
Inductive Status (A : Type) : Type :=
| Finished (a : A)
| Failed (error : JsError)
| Blocked {R} (c : Call R) (k : Outcome R -> Prog A).
Arguments Finished {A} a.
Arguments Failed {A} error.
Arguments Blocked {A R} c k.

Fixpoint update {A} (i : nat) (f : A -> A) (l : list A) : list A :=
  match l, i with
  | [], _ => []
  | x :: l', O => f x :: l'
  | x :: l', S i' => x :: update i' f l'
  end.

Section Machine.

Variable generateFallbackMessage : GitStatus -> string.

(** The environment: the repository, the language model, the user in
    front of the dialogs.  [respond c e] is how call [c] settles when the
    environment is in state [e], and the state it leaves. *)
Variable E : Type.
Variable respond : forall R, Call R -> E -> Outcome R * E.

Record World := {
  provider : Provider;
  clock : Z;                          (* [Date.now()] *)
  sources : list TokenSource;         (* cancellation sources, by handle *)
  timers : list (nat * Z);            (* pending timeouts: handle, due time *)
  timerSeq : nat;                     (* next timer handle *)
  watching : bool;                    (* a live file system watcher exists *)
  workspace : bool;                   (* [workspaceFolders] is non-empty *)
  trace : list Effect;                (* oldest first *)
  tasks : list (option Task);         (* suspended handlers, by start order *)
  env : E
}.

Definition initial (workspaceFolders : bool) (e : E) : World := {|
  provider := newProvider;
  clock := 0;
  sources := [];
  timers := [];
  timerSeq := 0;
  watching := false;
  workspace := workspaceFolders;
  trace := [];
  tasks := [];
  env := e
|}.

Definition with_provider (f : Provider -> Provider) (w : World) : World :=
  {| provider := f (provider w); clock := clock w; sources := sources w;
     timers := timers w; timerSeq := timerSeq w; watching := watching w;
     workspace := workspace w; trace := trace w; tasks := tasks w; env := env w |}.

Definition with_clock (t : Z) (w : World) : World :=
  {| provider := provider w; clock := t; sources := sources w;
     timers := timers w; timerSeq := timerSeq w; watching := watching w;
     workspace := workspace w; trace := trace w; tasks := tasks w; env := env w |}.

Definition with_sources (f : list TokenSource -> list TokenSource) (w : World) : World :=
  {| provider := provider w; clock := clock w; sources := f (sources w);
     timers := timers w; timerSeq := timerSeq w; watching := watching w;
     workspace := workspace w; trace := trace w; tasks := tasks w; env := env w |}.

Definition with_timers (f : list (nat * Z) -> list (nat * Z)) (w : World) : World :=
  {| provider := provider w; clock := clock w; sources := sources w;
     timers := f (timers w); timerSeq := timerSeq w; watching := watching w;
     workspace := workspace w; trace := trace w; tasks := tasks w; env := env w |}.

Definition with_timerSeq (n : nat) (w : World) : World :=
  {| provider := provider w; clock := clock w; sources := sources w;
     timers := timers w; timerSeq := n; watching := watching w;
     workspace := workspace w; trace := trace w; tasks := tasks w; env := env w |}.

Definition with_watching (b : bool) (w : World) : World :=
  {| provider := provider w; clock := clock w; sources := sources w;
     timers := timers w; timerSeq := timerSeq w; watching := b;
     workspace := workspace w; trace := trace w; tasks := tasks w; env := env w |}.

Definition with_tasks (f : list (option Task) -> list (option Task)) (w : World) : World :=
  {| provider := provider w; clock := clock w; sources := sources w;
     timers := timers w; timerSeq := timerSeq w; watching := watching w;
     workspace := workspace w; trace := trace w; tasks := f (tasks w); env := env w |}.

Definition with_env (e : E) (w : World) : World :=
  {| provider := provider w; clock := clock w; sources := sources w;
     timers := timers w; timerSeq := timerSeq w; watching := watching w;
     workspace := workspace w; trace := trace w; tasks := tasks w; env := e |}.

Definition log (e : Effect) (w : World) : World :=
  {| provider := provider w; clock := clock w; sources := sources w;
     timers := timers w; timerSeq := timerSeq w; watching := watching w;
     workspace := workspace w; trace := trace w ++ [e]; tasks := tasks w; env := env w |}.

Definition pendingTimer (id : nat) (tm : nat * Z) : bool := Nat.eqb (fst tm) id.

(** One synchronous action. *)
Definition perform {X} (a : Action X) (w : World) : X * World :=
  match a in Action X return X * World with
  | GetThis => (provider w, w)
  | Assign f => (tt, with_provider f w)
  | DateNow => (clock w, w)
  | Do e => (tt, log e w)
  | NewCancellationTokenSource =>
      (List.length (sources w),
       with_sources (fun l => l ++ [{| cancelled := false; disposed := false |}]) w)
  | Cancel source =>
      (tt, with_sources
             (update source (fun s => {| cancelled := true; disposed := disposed s |})) w)
  | DisposeSource source =>
      (tt, with_sources
             (update source (fun s => {| cancelled := cancelled s; disposed := true |})) w)
  | SetTimeout ms =>
      (timerSeq w,
       with_timerSeq (S (timerSeq w))
         (with_timers (fun l => l ++ [(timerSeq w, clock w + ms)]) w))
  | ClearTimeout id =>
      (tt, with_timers (filter (fun tm => negb (pendingTimer id tm))) w)
  | CreateFileSystemWatcher => (tt, with_watching true w)
  | DisposeWatcher => (tt, with_watching false w)
  | WorkspaceFolders => (workspace w, w)
  end.

(** Run a program up to its next [await]. *)
Fixpoint run {A} (p : Prog A) (w : World) : World * Status A :=
  match p with
  | Ret a => (w, Finished a)
  | Throw e => (w, Failed e)
  | Act a k => let '(x, w') := perform a w in run (k x) w'
  | Await c k => (log (Invoke c) w, Blocked c k)
  end.

Definition suspended (s : Status unit) : option Task :=
  match s with
  | Blocked c k => Some (Pending c k)
  | Finished _ | Failed _ => None      (* a rejection nobody awaits is dropped *)
  end.

(** Start a handler: it runs up to its first [await]; if it suspends it
    joins the suspended handlers. *)
Definition spawn (p : Prog unit) (w : World) : World :=
  let '(w', s) := run p w in
  match suspended s with
  | Some t => with_tasks (fun l => l ++ [Some t]) w'
  | None => w'
  end.

(** The call awaited by handler [i] settles: the handler resumes and runs
    up to its next [await]. *)
Definition settle (i : nat) (w : World) : World :=
  match nth_error (tasks w) i with
  | Some (Some (Pending c k)) =>
      let '(o, e') := respond _ c (env w) in
      let '(w', s) := run (k o) (with_env e' w) in
      with_tasks (update i (fun _ => suspended s)) w'
  | _ => w
  end.

(** A pending timeout fires: its callback starts at the due time. *)
Definition fire (tm : nat * Z) (w : World) : World :=
  if existsb (pendingTimer (fst tm)) (timers w) then
    spawn refreshTimeoutCallback
      (log (TimeoutFired (fst tm) (snd tm))
         (with_clock (Z.max (clock w) (snd tm))
            (with_timers (filter (fun x => negb (pendingTimer (fst tm) x))) w)))
  else w.

(** Time passes up to [t]: the timeouts due by then fire, oldest first
    (all timeouts have the same delay, so creation order is due order). *)
Definition tick (t : Z) (w : World) : World :=
  if t <? clock w then w
  else
    with_clock t
      (fold_left (fun w' tm => fire tm w')
                 (filter (fun tm => snd tm <=? t) (timers w)) w).

Inductive Event :=
| ResolveWebviewView (visible : bool)   (* the host resolves the view *)
| DidChangeVisibility (visible : bool)
| DidReceiveMessage (data : Msg.t)
| StartFileWatcher
| FileChanged                           (* change, create or delete *)
| Dispose
| Refresh                               (* the public [refresh()] *)
| Tick (t : Z)
| Settle (i : nat).

(** The listeners of the view exist once the view is resolved; the
    watcher's listeners while it is live. *)
Definition step (ev : Event) (w : World) : World :=
  match ev with
  | ResolveWebviewView visible => spawn (resolveWebviewView visible) w
  | DidChangeVisibility visible =>
      if _view (provider w) then spawn (onDidChangeVisibility visible) w else w
  | DidReceiveMessage data =>
      if _view (provider w)
      then spawn (onDidReceiveMessage generateFallbackMessage data) w
      else w
  | StartFileWatcher => spawn startFileWatcher w
  | FileChanged => if watching w then spawn debouncedRefresh w else w
  | Dispose => spawn dispose w
  | Refresh => spawn refresh w
  | Tick t => tick t w
  | Settle i => settle i w
  end.

Definition steps (evs : list Event) (w : World) : World :=
  fold_left (fun w' ev => step ev w') evs w.

End Machine.

Arguments provider {E} w.
Arguments clock {E} w.
Arguments sources {E} w.
Arguments timers {E} w.
Arguments timerSeq {E} w.
Arguments watching {E} w.
Arguments workspace {E} w.
Arguments trace {E} w.
Arguments tasks {E} w.
Arguments env {E} w.
Arguments initial {E} workspaceFolders e.
Arguments log {E} e w.
Arguments perform {E X} a w.
Arguments run {E A} p w.
Arguments spawn {E} p w.
Arguments settle {E} respond i w.
Arguments fire {E} tm w.
Arguments tick {E} t w.
Arguments step generateFallbackMessage {E} respond ev w.
Arguments steps generateFallbackMessage {E} respond evs w.

(* ------------------------------------------------------------------ *)
(** ** Sample environments                                             *)
(* ------------------------------------------------------------------ *)

(** A scripted environment: the calls settle, in the order in which they
    settle, as the script says; past the script every call resolves to a
    default value. *)
Module Script.

Definition Answer : Type := forall R, Call R -> Outcome R.

Definition noStatus : GitStatus :=
  {| branch := "main"; ahead := 0; behind := 0;
     staged := []; unstaged := []; untracked := [] |}.

Definition ok : Answer := fun R c =>
  match c in Call R return Outcome R with
  | isGitRepository => Resolved true
  | getGitStatus => Resolved noStatus
  | stageFiles _ | stageAll | unstageFiles _ | commit _ | push | pull | fetch
  | discardChanges _ | createBranch _ | checkoutBranch _ | deleteBranch _
  | fsStat _ | executeCommand _ _ | showTextDocument _
  | CommitDetailsPanel_show _ => Resolved tt
  | getBranches => Resolved []
  | getCurrentBranch => Resolved "main"%string
  | getCommitHistory _ => Resolved []
  | generateDetailedCommitMessage _ _ => Resolved "update files"%string
  | showWarningMessage _ _ _ | showErrorMessage _ _ => Resolved None
  end.

Definition fails (text : string) : Answer := fun R _ =>
  Rejected {| err_name := "Error"; err_message := text; err_isLM := false |}.

Definition status (s : GitStatus) : Answer := fun R c =>
  match c in Call R return Outcome R with
  | getGitStatus => Resolved s
  | c' => ok _ c'
  end.

Definition branches (l : list Branch) : Answer := fun R c =>
  match c in Call R return Outcome R with
  | getBranches => Resolved l
  | c' => ok _ c'
  end.

Definition generated (text : string) : Answer := fun R c =>
  match c in Call R return Outcome R with
  | generateDetailedCommitMessage _ _ => Resolved text
  | c' => ok _ c'
  end.

Definition t : Type := list Answer.

Definition respond (R : Type) (c : Call R) (script : t) : Outcome R * t :=
  match script with
  | [] => (ok R c, [])
  | a :: rest => (a R c, rest)
  end.

(** The fallback message is immaterial to the scripted runs. *)
Definition fallback (_ : GitStatus) : string := "chore: update files"%string.

Definition step := step fallback respond.
Definition steps := steps fallback respond.

End Script.

(** A small repository: the commits not yet pushed, and whether the
    remote can be reached.  [commit] records a commit, [push] publishes
    the recorded commits or is rejected, [getGitStatus] counts the
    commits ahead of the remote. *)
Module Repo.

Record t := {
  unpushed : list string;
  online : bool
}.

Definition unreachable : JsError :=
  {| err_name := "Error"; err_message := "could not reach remote";
     err_isLM := false |}.

Definition status (r : t) : GitStatus :=
  {| branch := "main"; ahead := Z.of_nat (List.length (unpushed r)); behind := 0;
     staged := []; unstaged := []; untracked := [] |}.

Definition respond (R : Type) (c : Call R) (r : t) : Outcome R * t :=
  match c in Call R return Outcome R * t with
  | commit msg =>
      (Resolved tt, {| unpushed := unpushed r ++ [msg]; online := online r |})
  | push =>
      if online r then (Resolved tt, {| unpushed := []; online := true |})
      else (Rejected unreachable, r)
  | getGitStatus => (Resolved (status r), r)
  | c' => (Script.ok _ c', r)
  end.

End Repo.

(* ------------------------------------------------------------------ *)
(** ** The webview script ([_getAllScripts])                           *)
(* ------------------------------------------------------------------ *)

Module Client.

Local Open Scope string_scope.

(** The [categories] object: its keys in insertion order, which is the
    order in which [Object.entries] lists them. *)
Definition Categories : Type := list (string * list string).

Definition noCategories : Categories :=
  [("feat", []); ("fix", []); ("docs", []); ("style", []);
   ("test", []); ("chore", []); ("refactor", [])]%list.

(** [categories.type.push(filename)] *)
Definition pushTo (type filename : string) (categories : Categories) : Categories :=
  map (fun entry =>
         if (fst entry =? type) then (fst entry, (snd entry ++ [filename])%list)
         else entry)
      categories.

(** The regular expressions of the chain, each tested on the whole path. *)
Definition reTest (file : string) : bool :=          (* /test|spec/i *)
  Js.includesCI "test" file || Js.includesCI "spec" file.

Definition reDocs (file : string) : bool :=          (* /[.]md$/i *)
  Js.endsWithCI ".md" file.

Definition reStyle (file : string) : bool :=         (* /[.](css|scss|less)$/i *)
  Js.endsWithCI ".css" file || Js.endsWithCI ".scss" file
  || Js.endsWithCI ".less" file.

Definition reChore (file : string) : bool :=
  (* /package[.]json|tsconfig|config|[.]jsonc$/i *)
  Js.includesCI "package.json" file || Js.includesCI "tsconfig" file
  || Js.includesCI "config" file || Js.endsWithCI ".jsonc" file.

Definition reFeature (file : string) : bool :=       (* /src|component|feature|page/i *)
  Js.includesCI "src" file || Js.includesCI "component" file
  || Js.includesCI "feature" file || Js.includesCI "page" file.

(** The [if ... else if] chain inside [files.forEach]: the category a
    file is pushed to. *)
Definition categorize (allUntracked : list string) (file : string) : string :=
  let isNew := Js.includes allUntracked file in
  if reTest file then "test"
  else if reDocs file then "docs"
  else if reStyle file then "style"
  else if reChore file then "chore"
  else if isNew && reFeature file then "feat"
  else if negb isNew then "fix"
  else "refactor".

(** The template literal built for a non-empty category. *)
Definition entryMessage (type : string) (fileList : list string) : string :=
  type ++ ": " ++ Js.join ", " (Js.slice0 3 fileList)
  ++ (if (3 <? List.length fileList)%nat
      then " +" ++ Js.ofNat (List.length fileList - 3) ++ " more"
      else "").

(** The [for ... of Object.entries(categories)] loop with its [break]. *)
Fixpoint firstNonEmpty (entries : Categories) : string :=
  match entries with
  | [] => ""
  | (type, fileList) :: rest =>
      if (0 <? List.length fileList)%nat then entryMessage type fileList
      else firstNonEmpty rest
  end%list.

(** [generateCommitMessage()], as a function of the two DOM queries it
    makes: the staged files and the untracked files of the document. *)
Definition generateCommitMessage (files allUntracked : list string) : string :=
  if (List.length files =? 0)%nat then "chore: update files"
  else
    let categories :=
      fold_left (fun categories file =>
                   pushTo (categorize allUntracked file)
                          (Js.pop (Js.split "/" file)) categories)
                files noCategories in
    let text := firstNonEmpty categories in
    if Js.truthy text then text else "chore: update files".

(** *** The document and its loading states *)

Definition stagedOf (p : Page) : list string :=
  match pg_status p with
  | Some s => staged s
  | None => []
  end%list.

Definition untrackedOf (p : Page) : list string :=
  match pg_status p with
  | Some s => untracked s
  | None => []
  end%list.

Definition nonEmpty {A} (l : list A) : bool := (0 <? List.length l)%nat.

(** [document.getElementById(id)] finds an element: which ids the
    templates of the three tabs emit. *)
Definition hasElement (doc : Html) (id : string) : bool :=
  match doc with
  | LoadingHtml => false
  | ContentHtml p =>
      pg_isGitRepo p &&
      (let changes :=
         match pg_status p with
         | Some _ => existsb (String.eqb id) ["pullBtn"; "pushBtn"; "fetchBtn"; "refreshBtn"]%list
         | None => false
         end in
       let commitBox :=
         nonEmpty (stagedOf p) &&
         existsb (String.eqb id)
           ["generateMsgBtn"; "commitMessageLoader"; "commitMessage";
            "commitBtn"; "commitPushBtn"]%list in
       let branches :=
         existsb (String.eqb id) ["newBranchName"; "addBtn"]%list
         || existsb (fun b => id =? "branch-" ++ Js.dashed (name b)) (pg_localBranches p) in
       let commits :=
         (id =? "refreshBtn")
         || ((id =? "loadMoreBtn") && nonEmpty (pg_commits p)
             && (20 <=? List.length (pg_commits p))%nat) in
       changes || commitBox || branches || commits)
  end.

(** The state of the page: the document shown, the elements carrying the
    [loading] class, whether the generate button's [onclick] is
    [stopGeneration], and the value of the commit message textarea. *)
Record t := {
  document : Html;
  loading : list string;
  stopBound : bool;
  commitMessage : string
}.

Definition isLoading (c : t) (id : string) : bool :=
  existsb (String.eqb id) (loading c).

Definition addClass (id : string) (l : list string) : list string :=
  if existsb (String.eqb id) l then l else (l ++ [id])%list.

Definition removeClass (id : string) (l : list string) : list string :=
  filter (fun x => negb (x =? id)) l.

Definition showLoading (buttonId : string) (c : t) : t :=
  if negb (hasElement (document c) buttonId) then c
  else {| document := document c;
          loading := addClass buttonId (loading c);
          stopBound := if buttonId =? "generateMsgBtn" then true else stopBound c;
          commitMessage := commitMessage c |}.

Definition clearLoading (buttonId : string) (c : t) : t :=
  if negb (hasElement (document c) buttonId) then c
  else {| document := document c;
          loading := removeClass buttonId (loading c);
          stopBound := if buttonId =? "generateMsgBtn" then false else stopBound c;
          commitMessage := commitMessage c |}.

Definition setLoading (elementId : string) (isLoading : bool) (c : t) : t :=
  if negb (hasElement (document c) elementId) then c
  else {| document := document c;
          loading := if isLoading then addClass elementId (loading c)
                     else removeClass elementId (loading c);
          stopBound := stopBound c;
          commitMessage := commitMessage c |}.

(** The ids that the [clearAllLoading] branch of the listener clears. *)
Definition clearAllIds : list string :=
  ["pushBtn"; "pullBtn"; "fetchBtn"; "refreshBtn"; "commitBtn"; "commitPushBtn";
   "loadMoreBtn"; "addBtn"; "generateMsgBtn"]%list.

(** [window.addEventListener('message', ...)] *)
Definition onMessage (m : Post.t) (c : t) : t :=
  match m with
  | Post.clearLoading buttonId =>
      if Js.truthy buttonId then clearLoading buttonId c else c
  | Post.clearAllLoading => fold_left (fun c' id => clearLoading id c') clearAllIds c
  | Post.commitMessageGenerated text =>
      if hasElement (document c) "commitMessage" && Js.truthy text
      then {| document := document c; loading := loading c;
              stopBound := stopBound c; commitMessage := text |}
      else c
  end.

(** A new document replaces the page: no element of it is loading, the
    handlers are those of the markup, and the [DOMContentLoaded] listener
    fills the empty textarea when files are staged. *)
Definition load (doc : Html) : t :=
  {| document := doc;
     loading := []%list;
     stopBound := false;
     commitMessage :=
       match doc with
       | LoadingHtml => ""
       | ContentHtml p =>
           if hasElement doc "commitMessage" && nonEmpty (stagedOf p)
           then generateCommitMessage (stagedOf p) (untrackedOf p)
           else ""
       end |}.

(** What reaches the page of the effects of the extension. *)
Definition receive (e : Effect) (c : t) : t :=
  match e with
  | PostMessage m => onMessage m c
  | SetHtml doc => load doc
  | _ => c
  end.

Definition deliver (effects : list Effect) (c : t) : t :=
  fold_left (fun c' e => receive e c') effects c.

(** *** The functions bound to the controls: the new state of the page
    and the messages posted to the extension. *)

Definition fillCommitMessage (c : t) : t * list Msg.t :=
  if negb (hasElement (document c) "commitMessage") then (c, [])
  else (showLoading "generateMsgBtn" c, [Msg.generateCommitMessage])%list.

Definition stopGeneration (c : t) : t * list Msg.t :=
  (clearLoading "generateMsgBtn" c, [Msg.stopGeneration])%list.

(** A click on the generate button runs whichever function its [onclick]
    is bound to. *)
Definition clickGenerate (c : t) : t * list Msg.t :=
  if negb (hasElement (document c) "generateMsgBtn") then (c, [])%list
  else if stopBound c then stopGeneration c else fillCommitMessage c.

Definition refreshWithLoading (c : t) : t * list Msg.t :=
  (showLoading "refreshBtn" c, [Msg.refresh])%list.



Definition pushWithLoading (c : t) : t * list Msg.t :=
  (showLoading "pushBtn" c, [Msg.push])%list.

Definition pullWithLoading (c : t) : t * list Msg.t :=
  (showLoading "pullBtn" c, [Msg.pull])%list.

Definition fetchWithLoading (c : t) : t * list Msg.t :=
  (showLoading "fetchBtn" c, [Msg.fetch])%list.


Definition switchToBranchWithLoading (branchName : string) (c : t) : t * list Msg.t :=
  let branchId := "branch-" ++ Js.dashed branchName in
  (setLoading branchId true c, [Msg.switchBranch branchName])%list.

Definition removeBranchWithLoading (branchName : string) (c : t) : t * list Msg.t :=
  let branchId := "branch-" ++ Js.dashed branchName in
  (setLoading branchId true c, [Msg.deleteBranch branchName])%list.

Definition loadMoreWithLoading (c : t) : t * list Msg.t :=
  (setLoading "loadMoreBtn" true c, [Msg.loadMore])%list.

End Client.

(* ------------------------------------------------------------------ *)
(** ** Predicates and observations used by the statements              *)
(* ------------------------------------------------------------------ *)

(** Every synchronous action a program can reach satisfies [ok]. *)
Fixpoint only (ok : forall X, Action X -> Prop) {A} (p : Prog A) : Prop :=
  match p with
  | Ret _ | Throw _ => True
  | Act a k => ok _ a /\ forall x, only ok (k x)
  | Await c k => forall o, only ok (k o)
  end.

(** Assignments to the provider's fields keep [I]. *)
Definition keeps (I : Provider -> Prop) : forall X, Action X -> Prop :=
  fun X a =>
    match a with
    | Assign f => forall p, I p -> I (f p)
    | _ => True
    end.

Definition taskOnly (ok : forall X, Action X -> Prop) (t : option Task) : Prop :=
  match t with
  | Some (Pending c k) => forall o, only ok (k o)
  | None => True
  end.

(** [I] survives each assignment that the provider's code makes. *)
Record stable (I : Provider -> Prop) : Prop := {
  stable_view : forall v p, I p -> I (set_view v p);
  stable_fileWatcher : forall v p, I p -> I (set_fileWatcher v p);
  stable_refreshTimeout : forall v p, I p -> I (set_refreshTimeout v p);
  stable_isVisible : forall v p, I p -> I (set_isVisible v p);
  stable_cachedStatus : forall v p, I p -> I (set_cachedStatus v p);
  stable_lastRefresh : forall v p, I p -> I (set_lastRefresh v p);
  stable_activeTab : forall v p, I p -> I (set_activeTab v p);
  stable_commitsLimit : forall p, I p -> I (set_commitsLimit 50 p);
  stable_generationCancelToken :
    forall v p, I p -> I (set_generationCancelToken v p)
}.

(** The times at which timeout callbacks started. *)
Definition firings (effects : list Effect) : list Z :=
  flat_map (fun e => match e with
                     | TimeoutFired _ time => [time]
                     | _ => []
                     end) effects.

(** The error notifications shown: text and modality. *)
Definition errorsShown (effects : list Effect) : list (string * bool) :=
  flat_map (fun e => match e with
                     | ShowErrorMessage text modal => [(text, modal)]
                     | _ => []
                     end) effects.

(** Effects of interest: a status fetch is issued, the backend commit is
    called, a generated message is posted. *)
Definition isStatusFetch (e : Effect) : bool :=
  match e with
  | Invoke getGitStatus => true
  | _ => false
  end.

Definition isCommitCall (e : Effect) : bool :=
  match e with
  | Invoke (commit _) => true
  | _ => false
  end.

Definition isGenerated (e : Effect) : bool :=
  match e with
  | PostMessage (Post.commitMessageGenerated _) => true
  | _ => false
  end.

(** A burst of file system notifications at the given times. *)
Definition burst (times : list Z) : list Event :=
  flat_map (fun t => [Tick t; FileChanged]) times.

(** Consecutive times, starting after [t], less than 1000 ms apart. *)
Fixpoint closelySpaced (t : Z) (times : list Z) : Prop :=
  match times with
  | [] => True
  | t' :: rest => t <= t' < t + 1000 /\ closelySpaced t' rest
  end.

(** Every pending timeout is the one the provider remembers. *)
Definition tracked {E} (w : World E) : Prop :=
  forall tm, In tm (timers w) -> _refreshTimeout (provider w) = Some (fst tm).

(** The actions of a handler that leaves timeouts alone: it starts and
    clears none, and its assignments keep [_refreshTimeout]. *)
Definition quiet : forall X, Action X -> Prop :=
  fun X a =>
    match a with
    | SetTimeout _ | ClearTimeout _ => False
    | Assign f => forall p, _refreshTimeout (f p) = _refreshTimeout p
    | _ => True
    end.

(** The pending timeouts are tracked and no suspended handler will touch
    them. *)
Definition settledTimers {E} (w : World E) : Prop :=
  tracked w /\ Forall (taskOnly quiet) (tasks w).

(** A slot of the suspended handlers whose handler has ended. *)
Definition idle (t : option Task) : bool :=
  match t with
  | Some _ => false
  | None => true
  end.

(** A suspended handler that makes only the assignments of the provider's
    code: it keeps whatever those assignments keep. *)
Definition fromCode (t : option Task) : Prop :=
  forall I, stable I -> taskOnly (keeps I) t.

Definition wellFormed {E} (w : World E) : Prop :=
  Forall fromCode (tasks w).

(** The state right after a notification handled at time [t]: one
    pending timeout, due a quiet period later, remembered by the
    provider. *)
Definition armed {E} (id : nat) (t : Z) (w : World E) : Prop :=
  timers w = [(id, t + 1000)]
  /\ _refreshTimeout (provider w) = Some id
  /\ watching w = true
  /\ clock w = t.

(** The effects of [w] that came after those of [w0]. *)
Definition since {E} (w0 w : World E) : list Effect :=
  skipn (List.length (trace w0)) (trace w).

(** The categories in the order in which the message loop visits them. *)
Definition entryOrder : list string :=
  ["feat"; "fix"; "docs"; "style"; "test"; "chore"; "refactor"]%string.

(** The names, in order, of the staged files of one category. *)
Definition filesOfType (allUntracked : list string) (type : string)
           (files : list string) : list string :=
  map (fun file => Js.pop (Js.split "/" file))
      (filter (fun file => (Client.categorize allUntracked file =? type)%string) files).

(** The staged files of the sample: a document, a source file and a test. *)
Definition sampleStaged : list string :=
  ["README.md"; "src/app.ts"; "test/app.spec.ts"]%string.

(** *** Sample runs

    A repository with one staged file and two local branches.  The
    watcher is started, the view is resolved visible at time 1000000 and
    its first load completes at once; [later] scripts the calls that
    settle afterwards. *)
Module Scenario.

Definition s0 : GitStatus :=
  {| branch := "main"; ahead := 0; behind := 0;
     staged := ["src/app.ts"%string]; unstaged := []; untracked := [] |}.

Definition s1 : GitStatus :=
  {| branch := "main"; ahead := 0; behind := 0;
     staged := ["src/app.ts"%string; "README.md"%string];
     unstaged := []; untracked := [] |}.

Definition localBranches : list Branch :=
  [ {| name := "main"; current := true; remote := false |};
    {| name := "feature"; current := false; remote := false |} ].

Definition loaded (later : Script.t) : World Script.t :=
  Script.steps
    [StartFileWatcher; Tick 1000000; ResolveWebviewView true;
     Settle 0; Settle 0; Settle 0; Settle 0; Settle 0]
    (initial true
       ([Script.ok; Script.status s0; Script.branches localBranches;
         Script.ok; Script.ok] ++ later)).

(** The page showing the document of the first load. *)
Definition page : Client.t :=
  Client.deliver (trace (loaded [])) (Client.load LoadingHtml).

(** Ten seconds after the first load, [loadMore]; by then the
    repository reports [s1]. *)
Definition reportsS1 : Script.t :=
  [Script.status s1; Script.status s1; Script.status s1; Script.status s1].

Definition beforeLoadMore : World Script.t := loaded reportsS1.

Definition loadMoreLater : World Script.t :=
  Script.steps
    [Tick 1010000; DidReceiveMessage Msg.loadMore;
     Settle 1; Settle 1; Settle 1; Settle 1]
    beforeLoadMore.

(** A second load is in flight, suspended on [isGitRepository], when
    [elapsed] ms pass; then the call settles. *)
Definition checkAfter (elapsed : Z) : World Script.t :=
  Script.steps
    [DidReceiveMessage Msg.loadMore; Tick (1000000 + elapsed); Settle 1]
    (loaded [Script.ok]).




(** Only the watcher runs. *)
Definition watchingOnly : World Script.t :=
  Script.steps [StartFileWatcher; Tick 5000] (initial true []).

(** The view of a repository whose remote cannot be reached, after its
    first load. *)
Definition offline : World Repo.t :=
  steps Script.fallback Repo.respond
    [ResolveWebviewView true; Settle 0; Settle 0; Settle 0; Settle 0; Settle 0]
    (initial true {| Repo.unpushed := []; Repo.online := false |}).

Definition committedOffline : Repo.t :=
  {| Repo.unpushed := ["add app"%string]; Repo.online := false |}.

(** Notifications 300, 900 and 1500 ms after the first one. *)
Definition burstTimes : list Z := [5300; 5900; 6500].

(** The view has just been resolved, visible. *)
Definition resolved : World Script.t :=
  Script.steps [ResolveWebviewView true] (initial true []).

(** A generation is requested and is waiting for the language model
    when a second one is requested. *)
Definition secondGeneration : World Script.t :=
  Script.steps
    [DidReceiveMessage Msg.generateCommitMessage; Settle 1;
     DidReceiveMessage Msg.generateCommitMessage]
    (loaded [Script.status s0; Script.generated "first"]).

(** Then the language model answers the first request. *)
Definition firstAnswered : World Script.t :=
  Script.steps [Settle 1] secondGeneration.

(** The user clicks the row of branch [feature]; the checkout fails. *)
Definition branchClicked : Client.t * list Msg.t :=
  Client.switchToBranchWithLoading "feature" page.

Definition beforeCheckout : World Script.t :=
  loaded [Script.fails "pathspec 'feature' did not match"].

Definition checkoutFailed : World Script.t :=
  Script.steps
    (map DidReceiveMessage (snd branchClicked) ++ [Settle 1])
    beforeCheckout.

Definition pageAfterCheckout : Client.t :=
  Client.deliver (since beforeCheckout checkoutFailed) (fst branchClicked).

End Scenario.

(** A program that never ends in an exception, however its calls
    settle. *)
Fixpoint neverThrows {A} (p : Prog A) : Prop :=
  match p with
  | Ret _ => True
  | Throw _ => False
  | Act a k => forall x, neverThrows (k x)
  | Await c k => forall o, neverThrows (k o)
  end.

(** The commands whose handler starts with a backend call: that call, and
    whether its failure is reported in a modal dialog. *)
Definition firstBackendCall (data : Msg.t) : option (Call unit * bool) :=
  match data with
  | Msg.stageAll => Some (stageAll, false)
  | Msg.stageFile file => Some (stageFiles [file], false)
  | Msg.unstageFile file => Some (unstageFiles [file], false)
  | Msg.commit msg => if isBlank msg then None else Some (commit msg, false)
  | Msg.commitAndPush msg => if isBlank msg then None else Some (commit msg, true)
  | Msg.push => Some (push, true)
  | Msg.pull => Some (pull, false)
  | Msg.fetch => Some (fetch, false)
  | Msg.createBranch branchName =>
      if isBlank branchName then None else Some (createBranch branchName, false)
  | Msg.switchBranch branchName => Some (checkoutBranch branchName, false)
  | _ => None
  end.

(** No character of the string is a slash. *)
Fixpoint noSlash (s : string) : bool :=
  match s with
  | EmptyString => true
  | String c s' => negb (Ascii.eqb c "/") && noSlash s'
  end.

(** [document.getElementById(id)] among the rows of the local branches:
    the first row, in document order, that carries the id. *)
Definition branchRow (p : Page) (id : string) : option Branch :=
  find (fun b => (id =? "branch-" ++ Js.dashed (name b))%string) (pg_localBranches p).


(** Two local branches whose names differ only in a character that the
    row id replaces by a dash. *)
Definition collidingBranches : list Branch :=
  [ {| name := "feat/x"; current := true; remote := false |};
    {| name := "feat-x"; current := false; remote := false |} ].

Definition collidingPage : Page :=
  {| pg_isGitRepo := true; pg_status := Some Scenario.s0;
     pg_localBranches := collidingBranches;
     pg_remoteBranches := []; pg_currentBranch := "feat/x";
     pg_commits := []; pg_activeTab := "branches" |}.

(** *** A second generation requested while the first is in flight

    The user clicks the generate button; the first request has fetched
    the status and waits for the language model.  The user clicks pull,
    which fails; the [clearAllLoading] that follows reaches the page.  The
    user clicks the generate button again. *)
Module Overlap.

(** The answers, in the order in which the calls settle: the status for
    the first request, the failure of [pull], the text for the first
    request, the status for the second request. *)
Definition script : Script.t :=
  [Script.status Scenario.s0; Script.fails "no remote configured";
   Script.generated "first"; Script.status Scenario.s0].

Definition firstClick : Client.t * list Msg.t :=
  Client.clickGenerate Scenario.page.

Definition pullClick : Client.t * list Msg.t :=
  Client.pullWithLoading (fst firstClick).

Definition pullFailed : World Script.t :=
  Script.steps
    (map DidReceiveMessage (snd firstClick) ++ [Settle 1]
     ++ map DidReceiveMessage (snd pullClick) ++ [Settle 2])
    (Scenario.loaded script).

Definition pageAfterPull : Client.t :=
  Client.deliver (since (Scenario.loaded script) pullFailed) (fst pullClick).

Definition secondClick : Client.t * list Msg.t :=
  Client.clickGenerate pageAfterPull.

Definition secondRequested : World Script.t :=
  Script.steps (map DidReceiveMessage (snd secondClick)) pullFailed.

(** The language model answers the first request. *)
Definition firstAnswered : World Script.t :=
  Script.steps [Settle 1] secondRequested.

(** The status arrives for the second request, and the second request
    runs to its end. *)
Definition secondResumed : World Script.t :=
  Script.steps [Settle 3] firstAnswered.

Definition secondEnded : World Script.t :=
  Script.steps [Settle 3; Settle 3] secondResumed.

End Overlap.

(** The first load cached [s0]; [loadMore] starts a load, 2000 ms pass
    before the repository check settles, and the status fetch is
    rejected. *)
Definition staleFetchFailed : World Script.t :=
  Script.steps
    [DidReceiveMessage Msg.loadMore; Tick 1002000; Settle 1; Settle 1]
    (Scenario.loaded [Script.ok; Script.fails "index locked"]).

(** *** A load in flight while the view is hidden

    A refresh is waiting for the status when the view is hidden; a file
    changes and the debounced timeout fires; then the status arrives for
    the load in flight.  Later the view is shown again, 5000 ms after the
    last refresh, when the repository reports [s1]. *)
Module InFlight.

Definition script : Script.t :=
  [Script.ok; Script.status Scenario.s0; Script.ok; Script.status Scenario.s1].

Definition invalidated : World Script.t :=
  Script.steps
    [Refresh; Settle 1; DidChangeVisibility false;
     Tick 1000100; FileChanged; Tick 1001100]
    (Scenario.loaded script).

Definition resumed : World Script.t :=
  Script.steps [Settle 1] invalidated.

Definition shownLater : World Script.t :=
  Script.steps [Tick 1005000; DidChangeVisibility true; Settle 2] resumed.

End InFlight.




(* ------------------------------------------------------------------ *)
(** ** Basic facts                                                     *)
(* ------------------------------------------------------------------ *)

Lemma update_last {A} (l : list A) (x : A) (f : A -> A) :
  update (List.length l) f (l ++ [x]) = l ++ [f x].
Proof. induction l; cbn; congruence. Qed.

Lemma nth_error_last {A} (l : list A) (x : A) :
  nth_error (l ++ [x]) (List.length l) = Some x.
Proof. induction l; cbn; congruence. Qed.

Lemma trimStart_blank (s : string) :
  Js.allWhiteSpace s = true -> Js.trimStart s = EmptyString.
Proof.
  induction s as [|c s IH]; cbn; [reflexivity|].
  destruct (Js.isWhiteSpace c); cbn; [exact IH | discriminate].
Qed.

Lemma trimEnd_keeps_head (c : ascii) (s : string) :
  Js.isWhiteSpace c = false -> Js.trimEnd (String c s) <> EmptyString.
Proof.
  intros Hc. cbn. destruct (Js.trimEnd s); [rewrite Hc|]; discriminate.
Qed.

Lemma trim_not_blank (s : string) :
  Js.allWhiteSpace s = false -> Js.trim s <> EmptyString.
Proof.
  unfold Js.trim. induction s as [|c s IH]; cbn; [discriminate|].
  destruct (Js.isWhiteSpace c) eqn:Hc; cbn.
  - exact IH.
  - intros _. destruct (Js.trimEnd s); [rewrite Hc|]; discriminate.
Qed.

(** The guard [!message || !message.trim()] holds exactly of the strings
    made of white space only (the empty one among them). *)
Lemma isBlank_allWhiteSpace (s : string) :
  isBlank s = Js.allWhiteSpace s.
Proof.
  unfold isBlank, Js.truthy. rewrite !negb_involutive.
  destruct (Js.allWhiteSpace s) eqn:Hs.
  - unfold Js.trim. rewrite (trimStart_blank s Hs). cbn. apply orb_true_r.
  - pose proof (trim_not_blank s Hs) as Ht.
    assert (Hne : s <> EmptyString) by (intros ->; discriminate).
    apply String.eqb_neq in Ht. apply String.eqb_neq in Hne.
    rewrite Ht, Hne. reflexivity.
Qed.

Section Facts.

Variable fallback : GitStatus -> string.
Variable E : Type.
Variable respond : forall R, Call R -> E -> Outcome R * E.

Lemma steps_cons (ev : Event) (evs : list Event) (w : World E) :
  steps fallback respond (ev :: evs) w
  = steps fallback respond evs (step fallback respond ev w).
Proof. reflexivity. Qed.

Lemma steps_nil (w : World E) : steps fallback respond [] w = w.
Proof. reflexivity. Qed.

Lemma steps_app (evs1 evs2 : list Event) (w : World E) :
  steps fallback respond (evs1 ++ evs2) w
  = steps fallback respond evs2 (steps fallback respond evs1 w).
Proof. apply fold_left_app. Qed.

Lemma perform_tasks {X} (a : Action X) (w : World E) :
  tasks (snd (perform a w)) = tasks w.
Proof. destruct a; reflexivity. Qed.

Lemma perform_env {X} (a : Action X) (w : World E) :
  env (snd (perform a w)) = env w.
Proof. destruct a; reflexivity. Qed.

Lemma run_tasks {A} (p : Prog A) (w : World E) :
  tasks (fst (run p w)) = tasks w.
Proof.
  revert w. induction p as [a|e|X a k IH|R c k IH]; intros w; cbn; try reflexivity.
  destruct (perform a w) as [x w1] eqn:Hp. rewrite IH.
  change w1 with (snd (x, w1)). rewrite <- Hp. apply perform_tasks.
Qed.

Lemma run_env {A} (p : Prog A) (w : World E) :
  env (fst (run p w)) = env w.
Proof.
  revert w. induction p as [a|e|X a k IH|R c k IH]; intros w; cbn; try reflexivity.
  destruct (perform a w) as [x w1] eqn:Hp. rewrite IH.
  change w1 with (snd (x, w1)). rewrite <- Hp. apply perform_env.
Qed.

(** Resuming the handler that was started last. *)
Lemma settle_last (w : World E) (l : list (option Task)) R (c : Call R)
      (k : Outcome R -> Prog unit) (o : Outcome R) (e' : E) :
  tasks w = l ++ [Some (Pending c k)] ->
  respond _ c (env w) = (o, e') ->
  settle respond (List.length l) w =
  with_tasks E (fun _ => l ++ [suspended (snd (run (k o) (with_env E e' w)))])
             (fst (run (k o) (with_env E e' w))).
Proof.
  intros Ht Hr. unfold settle. rewrite Ht, nth_error_last, Hr.
  pose proof (run_tasks (k o) (with_env E e' w)) as Htasks.
  destruct (run (k o) (with_env E e' w)) as [w' s]. cbn in *.
  unfold with_tasks. rewrite Htasks, Ht, update_last. reflexivity.
Qed.

End Facts.

Arguments perform_tasks {E X} a w.
Arguments perform_env {E X} a w.
Arguments run_tasks {E A} p w.
Arguments run_env {E A} p w.

(* ------------------------------------------------------------------ *)
(** ** Commands handled in isolation                                   *)
(* ------------------------------------------------------------------ *)

(** Worlds are equal when their components are. *)
Lemma world_eq {E} (w1 w2 : World E) :
  provider w1 = provider w2 -> clock w1 = clock w2 -> sources w1 = sources w2 ->
  timers w1 = timers w2 -> timerSeq w1 = timerSeq w2 -> watching w1 = watching w2 ->
  workspace w1 = workspace w2 -> trace w1 = trace w2 -> tasks w1 = tasks w2 ->
  env w1 = env w2 -> w1 = w2.
Proof. destruct w1, w2; cbn; intros; subst; reflexivity. Qed.

Ltac world_ext :=
  apply world_eq; cbn; repeat rewrite <- app_assoc; cbn [app];
  try reflexivity; try assumption.

(** Take the first of the pending events: [tac] evaluates the handler, and
    the world it leaves is recorded component by component before the next
    event is looked at. *)
Ltac advance tac :=
  rewrite steps_cons;
  match goal with
  | |- context [steps _ _ _ (step ?f ?r ?ev ?w)] =>
      let H := fresh "Hstep" in
      eassert (H : step f r ev w = Build_World _ _ _ _ _ _ _ _ _ _ _);
      [ unfold step; tac; world_ext | rewrite H; clear H ]
  end.

Section Commands.

Variable fallback : GitStatus -> string.
Variable E : Type.
Variable respond : forall R, Call R -> E -> Outcome R * E.

(** C10. Handling [switchTab(tab)] assigns [_activeTab] and does nothing
    else: the world after the command is the world before it with that
    one field replaced, so the cached status, [_commitsLimit],
    [_lastRefresh] and the visibility are unchanged, no call is issued and
    nothing is posted or rendered (the trace is unchanged), and no handler
    is left suspended. *)
Theorem switchTab_only_sets_activeTab (w : World E) (tab : string) :
  _view (provider w) = true ->
  let w' := step fallback respond (DidReceiveMessage (Msg.switchTab tab)) w in
  w' = with_provider E (set_activeTab tab) w
  /\ _activeTab (provider w') = tab
  /\ _cachedStatus (provider w') = _cachedStatus (provider w)
  /\ _commitsLimit (provider w') = _commitsLimit (provider w)
  /\ _lastRefresh (provider w') = _lastRefresh (provider w)
  /\ _isVisible (provider w') = _isVisible (provider w)
  /\ trace w' = trace w
  /\ tasks w' = tasks w
  /\ env w' = env w.
Proof.
  intros Hview w'.
  assert (Hw : w' = with_provider E (set_activeTab tab) w).
  { subst w'. unfold step. rewrite Hview. reflexivity. }
  rewrite Hw. repeat split.
Qed.

Lemma removeClass_absent (id : string) (l : list string) :
  existsb (String.eqb id) (Client.removeClass id l) = false.
Proof.
  unfold Client.removeClass. induction l as [|x l IH]; cbn; [reflexivity|].
  destruct (String.eqb x id) eqn:Hx; cbn; [exact IH|].
  rewrite String.eqb_sym, Hx. exact IH.
Qed.

Lemma clearLoading_clears (id : string) (c : Client.t) :
  Client.hasElement (Client.document c) id = true ->
  Client.isLoading (Client.clearLoading id c) id = false.
Proof.
  intros Hel. unfold Client.clearLoading, Client.isLoading. rewrite Hel. cbn.
  apply removeClass_absent.
Qed.

(** C8. For a message that is empty or made of white space only,
    handling [commit(message)] shows the warning and posts
    [clearLoading] for [commitBtn], and that is all: every other component
    of the world is unchanged, no call is issued (so the backend [commit]
    is not called) and no handler is left suspended.  On the page, the
    posted message clears the [commitBtn] loading state. *)
Theorem commit_blank_message_rejected (w : World E) (msg : string) (c : Client.t) :
  _view (provider w) = true ->
  Js.allWhiteSpace msg = true ->
  Client.hasElement (Client.document c) "commitBtn" = true ->
  let w' := step fallback respond (DidReceiveMessage (Msg.commit msg)) w in
  let shown := [ShowWarningMessage "Commit message cannot be empty";
                PostMessage (Post.clearLoading "commitBtn")] in
  w' = {| provider := provider w; clock := clock w; sources := sources w;
          timers := timers w; timerSeq := timerSeq w; watching := watching w;
          workspace := workspace w; trace := trace w ++ shown;
          tasks := tasks w; env := env w |}
  /\ filter isCommitCall (trace w') = filter isCommitCall (trace w)
  /\ Client.isLoading (Client.deliver shown c) "commitBtn" = false.
Proof.
  intros Hview Hblank Hel w' shown.
  assert (Hw : w' = {| provider := provider w; clock := clock w; sources := sources w;
          timers := timers w; timerSeq := timerSeq w; watching := watching w;
          workspace := workspace w; trace := trace w ++ shown;
          tasks := tasks w; env := env w |}).
  { subst w' shown. unfold step. rewrite Hview.
    unfold spawn, onDidReceiveMessage, _handleCommit.
    rewrite isBlank_allWhiteSpace, Hblank. cbn. rewrite Hview. cbn.
    world_ext. }
  split; [exact Hw|]. split.
  - rewrite Hw. cbn. rewrite filter_app. cbn. apply app_nil_r.
  - subst shown. cbn. apply clearLoading_clears. exact Hel.
Qed.

Lemma errorsShown_app (l1 l2 : list Effect) :
  errorsShown (l1 ++ l2) = errorsShown l1 ++ errorsShown l2.
Proof. apply flat_map_app. Qed.

(** C3. [commitAndPush(message)] with a message that is not blank, where
    the [commit] call resolves and the [push] call that follows rejects:
    the handler issues [commit], then [push], and nothing after the
    rejection, so that the environment is left as the rejected [push]
    left it (the commit is not undone, and the next [getStatus] reads
    that state); exactly one error notification is shown, and it is
    modal; [clearAllLoading] is posted and the handler ends. *)
Theorem commitAndPush_push_rejected
        (w : World E) (msg : string) (e1 e2 : E) (error : JsError) :
  _view (provider w) = true ->
  Js.allWhiteSpace msg = false ->
  respond _ (commit msg) (env w) = (Resolved tt, e1) ->
  respond _ push e1 = (Rejected error, e2) ->
  let n := List.length (tasks w) in
  let w' := steps fallback respond
              [DidReceiveMessage (Msg.commitAndPush msg); Settle n; Settle n] w in
  w' = {| provider := provider w; clock := clock w; sources := sources w;
          timers := timers w; timerSeq := timerSeq w; watching := watching w;
          workspace := workspace w;
          trace := trace w ++
                   [Invoke (commit msg);
                    ShowInformationMessage "Changes committed";
                    Invoke push;
                    ShowErrorMessage ("GitShift: " ++ err_message error)%string true;
                    PostMessage Post.clearAllLoading];
          tasks := tasks w ++ [None];
          env := e2 |}
  /\ errorsShown (trace w')
     = errorsShown (trace w) ++ [(("GitShift: " ++ err_message error)%string, true)]
  /\ respond _ getGitStatus (env w') = respond _ getGitStatus e2.
Proof.
  intros Hview Hmsg Hcommit Hpush n w'.
  assert (Hw : w' = {| provider := provider w; clock := clock w; sources := sources w;
          timers := timers w; timerSeq := timerSeq w; watching := watching w;
          workspace := workspace w;
          trace := trace w ++
                   [Invoke (commit msg);
                    ShowInformationMessage "Changes committed";
                    Invoke push;
                    ShowErrorMessage ("GitShift: " ++ err_message error)%string true;
                    PostMessage Post.clearAllLoading];
          tasks := tasks w ++ [None];
          env := e2 |}).
  { subst w' n.
    advance ltac:(rewrite Hview;
                  unfold spawn, onDidReceiveMessage, _handleCommitAndPush;
                  rewrite isBlank_allWhiteSpace, Hmsg; cbn).
    advance ltac:(erewrite settle_last; [ | reflexivity | cbn; exact Hcommit ]; cbn).
    advance ltac:(erewrite settle_last; [ | reflexivity | cbn; exact Hpush ];
                  cbn; rewrite Hview; cbn).
    rewrite steps_nil. reflexivity. }
  rewrite Hw. cbn [trace env]. split; [reflexivity|]. split; [|reflexivity].
  rewrite errorsShown_app. reflexivity.
Qed.

End Commands.

(* ------------------------------------------------------------------ *)
(** ** Invariants of the provider's fields                             *)
(* ------------------------------------------------------------------ *)

Section Only.

Variable ok : forall X, Action X -> Prop.

Lemma only_bind {A B} (p : Prog A) (f : A -> Prog B) :
  only ok p -> (forall a, only ok (f a)) -> only ok (bind p f).
Proof.
  intros Hp Hf. induction p as [a|e|X a k IH|R c k IH]; cbn in *; auto.
  destruct Hp as [Ha Hk]. split; auto.
Qed.

Lemma only_try_catch {A} (p : Prog A) (h : JsError -> Prog A) :
  only ok p -> (forall e, only ok (h e)) -> only ok (try_catch p h).
Proof.
  intros Hp Hh. induction p as [a|e|X a k IH|R c k IH]; cbn in *; auto.
  destruct Hp as [Ha Hk]. split; auto.
Qed.

Lemma only_try_finally {A} (p : Prog A) (fin : Prog unit) :
  only ok p -> only ok fin -> only ok (try_finally p fin).
Proof.
  intros Hp Hf. induction p as [a|e|X a k IH|R c k IH]; cbn in *; auto.
  - apply only_bind; cbn; auto.
  - apply only_bind; cbn; auto.
  - destruct Hp as [Ha Hk]. split; auto.
Qed.

(** Where a program stops, what is left of it is again made of allowed
    actions. *)
Lemma run_only {E A} (p : Prog A) (w : World E) :
  only ok p ->
  match snd (run p w) with
  | Blocked c k => forall o, only ok (k o)
  | _ => True
  end.
Proof.
  revert w. induction p as [a|e|X a k IH|R c k IH]; intros w Hp; cbn in *; auto.
  destruct Hp as [_ Hk]. destruct (perform a w) as [x w1]. apply IH, Hk.
Qed.

End Only.

Ltac only_step :=
  match goal with
  | |- only _ (bind _ _) => apply only_bind; [|intros]
  | |- only _ (try_catch _ _) => apply only_try_catch; [|intros]
  | |- only _ (try_finally _ _) => apply only_try_finally
  | |- only _ (if ?b then _ else _) => destruct b
  | |- only _ (match ?x with _ => _ end) => destruct x
  | |- only _ (Ret _) => exact Logic.I
  | |- only _ (Throw _) => exact Logic.I
  | |- only _ (Act _ _) => split; [ | intros]
  | |- only _ (Await _ _) => let o := fresh "o" in intros o
  | |- only _ (act _) => unfold act
  | |- only _ (await _) => unfold await
  | |- only _ this => unfold this
  | |- only _ (assign _) => unfold assign
  | |- only _ (effect _) => unfold effect
  | |- only _ skip => exact Logic.I
  | |- only _ (postMessageIfView _) => unfold postMessageIfView
  | |- True => exact Logic.I
  end.

Section Stable.

Variable fallback : GitStatus -> string.
Variable I : Provider -> Prop.
Hypothesis HI : stable I.

Ltac keeps_tac :=
  cbn;
  first [ exact Logic.I
        | intros;
          first [ apply (stable_view I HI)
                | apply (stable_fileWatcher I HI)
                | apply (stable_refreshTimeout I HI)
                | apply (stable_isVisible I HI)
                | apply (stable_cachedStatus I HI)
                | apply (stable_lastRefresh I HI)
                | apply (stable_activeTab I HI)
                | apply (stable_commitsLimit I HI)
                | apply (stable_generationCancelToken I HI) ];
          assumption ].

Ltac only_tac :=
  repeat first [ only_step | match goal with |- keeps _ _ _ => keeps_tac end ].

Lemma only_getHtmlContent : only (keeps I) _getHtmlContent.
Proof. unfold _getHtmlContent. cbv zeta. only_tac. Qed.

Lemma only_loadContent : only (keeps I) _loadContent.
Proof. unfold _loadContent. only_tac. apply only_getHtmlContent. Qed.

Lemma only_refresh : only (keeps I) refresh.
Proof. unfold refresh. only_tac. apply only_loadContent. Qed.

Ltac only_all :=
  only_tac; try apply only_refresh; try apply only_loadContent; try exact tt.

Lemma only_onDidReceiveMessage (data : Msg.t) :
  only (keeps I) (onDidReceiveMessage fallback data).
Proof.
  unfold onDidReceiveMessage. apply only_try_catch; [|intros; only_tac].
  destruct data;
    unfold _handleStageAll, _handleStageFile, _handleUnstageFile, _handleCommit,
      _handleCommitAndPush, _handlePush, _handlePull, _handleFetch, _handleDiscard,
      _handleOpenDiff, _handleCreateBranch, _handleSwitchBranch, _handleDeleteBranch,
      _handleLoadMore, _handleOpenCommitDiff, _handleGenerateCommitMessage,
      _handleStopGeneration, offerFallback;
    only_all.
Qed.

Lemma only_onDidChangeVisibility (visible : bool) :
  only (keeps I) (onDidChangeVisibility visible).
Proof. unfold onDidChangeVisibility. only_all. Qed.

Lemma only_resolveWebviewView (visible : bool) :
  only (keeps I) (resolveWebviewView visible).
Proof. unfold resolveWebviewView. only_all. Qed.

Lemma only_startFileWatcher : only (keeps I) startFileWatcher.
Proof. unfold startFileWatcher. only_all. Qed.

Lemma only_debouncedRefresh : only (keeps I) debouncedRefresh.
Proof. unfold debouncedRefresh. only_all. Qed.

Lemma only_dispose : only (keeps I) dispose.
Proof. unfold dispose. only_all. Qed.

Lemma only_refreshTimeoutCallback : only (keeps I) refreshTimeoutCallback.
Proof. unfold refreshTimeoutCallback. only_all. Qed.

End Stable.

Section Preservation.

Variable fallback : GitStatus -> string.
Variable E : Type.
Variable respond : forall R, Call R -> E -> Outcome R * E.

Lemma perform_keeps (I : Provider -> Prop) {X} (a : Action X) (w : World E) :
  keeps I X a -> I (provider w) -> I (provider (snd (perform a w))).
Proof. destruct a; cbn; auto. Qed.

Lemma run_keeps (I : Provider -> Prop) {A} (p : Prog A) (w : World E) :
  only (keeps I) p -> I (provider w) -> I (provider (fst (run p w))).
Proof.
  revert w. induction p as [a|e|X a k IH|R c k IH]; intros w Hp Hw; cbn in *; auto.
  destruct Hp as [Ha Hk].
  pose proof (perform_keeps I a w Ha Hw) as Hw1.
  destruct (perform a w) as [x w1]. apply IH; auto.
Qed.

Lemma suspended_fromCode (p : Prog unit) (w : World E) :
  (forall I, stable I -> only (keeps I) p) ->
  fromCode (suspended (snd (run p w))).
Proof.
  intros Hp I HI. pose proof (run_only (keeps I) p w (Hp I HI)) as Hk.
  destruct (snd (run p w)); cbn; auto.
Qed.

Lemma spawn_wellFormed (p : Prog unit) (w : World E) :
  (forall I, stable I -> only (keeps I) p) ->
  wellFormed w -> wellFormed (spawn p w).
Proof.
  intros Hp Hw. unfold spawn, wellFormed in *.
  pose proof (run_tasks p w) as Ht.
  pose proof (suspended_fromCode p w Hp) as Hs.
  destruct (run p w) as [w' s]. cbn in Ht, Hs.
  destruct (suspended s) eqn:Hsus; cbn; rewrite Ht; auto.
  apply Forall_app. split; auto.
Qed.

Lemma spawn_keeps (I : Provider -> Prop) (p : Prog unit) (w : World E) :
  only (keeps I) p -> I (provider w) -> I (provider (spawn p w)).
Proof.
  intros Hp Hw. unfold spawn.
  pose proof (run_keeps I p w Hp Hw) as H.
  destruct (run p w) as [w' s]. cbn in H.
  destruct (suspended s); cbn; auto.
Qed.

Lemma Forall_update {A} (P : A -> Prop) (i : nat) (y : A) (l : list A) :
  Forall P l -> P y -> Forall P (update i (fun _ => y) l).
Proof.
  intros Hl Hy. revert i.
  induction Hl as [|x l Hx Hl IH]; intros [|i]; cbn; constructor; auto.
Qed.

Lemma settle_wellFormed (i : nat) (w : World E) :
  wellFormed w -> wellFormed (settle respond i w).
Proof.
  intros Hw. unfold settle.
  destruct (nth_error (tasks w) i) as [[[R c k]|]|] eqn:Hi; auto.
  destruct (respond R c (env w)) as [o e'].
  pose proof (run_tasks (k o) (with_env E e' w)) as Ht.
  assert (Hk : fromCode (suspended (snd (run (k o) (with_env E e' w))))).
  { apply suspended_fromCode. intros I HI.
    unfold wellFormed in Hw. rewrite Forall_forall in Hw.
    apply (Hw _ (nth_error_In _ _ Hi) I HI). }
  destruct (run (k o) (with_env E e' w)) as [w' s]. cbn in *.
  unfold wellFormed. cbn. rewrite Ht. apply Forall_update; auto.
Qed.

Lemma settle_keeps (I : Provider -> Prop) (i : nat) (w : World E) :
  stable I -> wellFormed w -> I (provider w) -> I (provider (settle respond i w)).
Proof.
  intros HI Hwf Hw. unfold settle.
  destruct (nth_error (tasks w) i) as [[[R c k]|]|] eqn:Hi; auto.
  destruct (respond R c (env w)) as [o e'].
  assert (Hk : only (keeps I) (k o)).
  { unfold wellFormed in Hwf. rewrite Forall_forall in Hwf.
    apply (Hwf _ (nth_error_In _ _ Hi) I HI). }
  pose proof (run_keeps I (k o) (with_env E e' w) Hk Hw) as H.
  destruct (run (k o) (with_env E e' w)) as [w' s]. cbn in *. exact H.
Qed.

Lemma fire_wellFormed (tm : nat * Z) (w : World E) :
  wellFormed w -> wellFormed (fire tm w).
Proof.
  intros Hw. unfold fire. destruct (existsb _ _); auto.
  apply spawn_wellFormed; auto.
  intros I HI. apply only_refreshTimeoutCallback; exact HI.
Qed.

Lemma fire_keeps (I : Provider -> Prop) (tm : nat * Z) (w : World E) :
  stable I -> I (provider w) -> I (provider (fire tm w)).
Proof.
  intros HI Hw. unfold fire. destruct (existsb _ _); auto.
  apply spawn_keeps; auto. apply only_refreshTimeoutCallback; exact HI.
Qed.

Lemma tick_wellFormed (t : Z) (w : World E) :
  wellFormed w -> wellFormed (tick t w).
Proof.
  intros Hw. unfold tick. destruct (t <? clock w); auto.
  generalize (filter (fun tm => snd tm <=? t) (timers w)). intros due.
  revert w Hw. induction due as [|tm due IH]; intros w Hw; cbn; auto.
  apply (IH (fire tm w)), fire_wellFormed, Hw.
Qed.

Lemma tick_keeps (I : Provider -> Prop) (t : Z) (w : World E) :
  stable I -> I (provider w) -> I (provider (tick t w)).
Proof.
  intros HI Hw. unfold tick. destruct (t <? clock w); auto.
  generalize (filter (fun tm => snd tm <=? t) (timers w)). intros due.
  revert w Hw. induction due as [|tm due IH]; intros w Hw; cbn; auto.
  apply (IH (fire tm w)), fire_keeps; auto.
Qed.

Lemma step_wellFormed (ev : Event) (w : World E) :
  wellFormed w -> wellFormed (step fallback respond ev w).
Proof.
  intros Hw. destruct ev; unfold step.
  - apply spawn_wellFormed; auto. intros I HI. apply only_resolveWebviewView; exact HI.
  - destruct (_view (provider w)); auto.
    apply spawn_wellFormed; auto. intros I HI. apply only_onDidChangeVisibility; exact HI.
  - destruct (_view (provider w)); auto.
    apply spawn_wellFormed; auto. intros I HI. apply only_onDidReceiveMessage; exact HI.
  - apply spawn_wellFormed; auto. intros I HI. apply only_startFileWatcher; exact HI.
  - destruct (watching w); auto.
    apply spawn_wellFormed; auto. intros I HI. apply only_debouncedRefresh; exact HI.
  - apply spawn_wellFormed; auto. intros I HI. apply only_dispose; exact HI.
  - apply spawn_wellFormed; auto. intros I HI. apply only_refresh; exact HI.
  - apply tick_wellFormed, Hw.
  - apply settle_wellFormed, Hw.
Qed.

(** Any property of the provider's fields that each assignment of the
    code keeps is kept by every event. *)
Lemma step_keeps (I : Provider -> Prop) (ev : Event) (w : World E) :
  stable I -> wellFormed w -> I (provider w) ->
  I (provider (step fallback respond ev w)).
Proof.
  intros HI Hwf Hw. destruct ev; unfold step.
  - apply spawn_keeps; auto. apply only_resolveWebviewView; exact HI.
  - destruct (_view (provider w)); auto.
    apply spawn_keeps; auto. apply only_onDidChangeVisibility; exact HI.
  - destruct (_view (provider w)); auto.
    apply spawn_keeps; auto. apply only_onDidReceiveMessage; exact HI.
  - apply spawn_keeps; auto. apply only_startFileWatcher; exact HI.
  - destruct (watching w); auto.
    apply spawn_keeps; auto. apply only_debouncedRefresh; exact HI.
  - apply spawn_keeps; auto. apply only_dispose; exact HI.
  - apply spawn_keeps; auto. apply only_refresh; exact HI.
  - apply tick_keeps; auto.
  - apply settle_keeps; auto.
Qed.

Lemma steps_wellFormed (evs : list Event) (w : World E) :
  wellFormed w -> wellFormed (steps fallback respond evs w).
Proof.
  revert w. induction evs as [|ev evs IH]; intros w Hw; cbn; auto.
  apply IH, step_wellFormed, Hw.
Qed.

Lemma steps_keeps (I : Provider -> Prop) (evs : list Event) (w : World E) :
  stable I -> wellFormed w -> I (provider w) ->
  I (provider (steps fallback respond evs w)).
Proof.
  intros HI. revert w. induction evs as [|ev evs IH]; intros w Hwf Hw; cbn; auto.
  apply IH; [apply step_wellFormed, Hwf | apply step_keeps; auto].
Qed.

Lemma initial_wellFormed (workspaceFolders : bool) (e : E) :
  wellFormed (initial workspaceFolders e).
Proof. constructor. Qed.

Lemma stable_between (n : Z) :
  stable (fun p => n <= _commitsLimit p <= 50).
Proof. constructor; intros; cbn in *; lia. Qed.

Lemma stable_20_or_50 :
  stable (fun p => _commitsLimit p = 20 \/ _commitsLimit p = 50).
Proof. constructor; intros; cbn in *; auto. Qed.

(** C9. [_commitsLimit] starts at 20; in every reachable state it is 20
    or 50; no sequence of events decreases it; and once [loadMore] has
    been handled it is 50 and stays 50 whatever follows, a second
    [loadMore] included. *)
Theorem commitsLimit_20_then_50
        (workspaceFolders : bool) (e : E) (evs evs' : list Event) :
  let w0 := initial workspaceFolders e in
  let w := steps fallback respond evs w0 in
  _commitsLimit (provider w0) = 20
  /\ (_commitsLimit (provider w) = 20 \/ _commitsLimit (provider w) = 50)
  /\ _commitsLimit (provider w)
     <= _commitsLimit (provider (steps fallback respond evs' w))
  /\ (_view (provider w) = true ->
      _commitsLimit
        (provider (steps fallback respond (DidReceiveMessage Msg.loadMore :: evs') w))
      = 50).
Proof.
  intros w0 w.
  assert (Hwf : wellFormed w) by apply steps_wellFormed, initial_wellFormed.
  assert (H2050 : _commitsLimit (provider w) = 20 \/ _commitsLimit (provider w) = 50).
  { apply (steps_keeps _ evs w0 stable_20_or_50 (initial_wellFormed _ _)).
    left. reflexivity. }
  split; [reflexivity|]. split; [exact H2050|]. split.
  - apply (steps_keeps _ evs' w (stable_between (_commitsLimit (provider w))) Hwf).
    lia.
  - intros Hview. rewrite steps_cons.
    pose proof (stable_between 50) as H50.
    cut (50 <= _commitsLimit
                 (provider (steps fallback respond evs'
                    (step fallback respond (DidReceiveMessage Msg.loadMore) w))) <= 50);
      [lia|].
    apply (steps_keeps (fun p => 50 <= _commitsLimit p <= 50)); auto.
    + apply step_wellFormed, Hwf.
    + pose proof (only_onDidReceiveMessage fallback _ H50 Msg.loadMore) as Honly.
      unfold step. rewrite Hview. unfold spawn.
      assert (HP : exists K, onDidReceiveMessage fallback Msg.loadMore
                             = Act (Assign (set_commitsLimit 50)) K)
        by (eexists; reflexivity).
      destruct HP as [K HP]. rewrite HP in *. clear HP.
      destruct Honly as [_ HK]. cbn [run perform].
      pose proof (run_keeps (fun p => 50 <= _commitsLimit p <= 50) (K tt)
                            (with_provider E (set_commitsLimit 50) w) (HK tt)) as Hrun.
      destruct (run (K tt) (with_provider E (set_commitsLimit 50) w)) as [w' s].
      cbn in Hrun. destruct (suspended s); cbn; apply Hrun; lia.
Qed.

End Preservation.

(* ------------------------------------------------------------------ *)
(** ** The debounced file watcher                                      *)
(* ------------------------------------------------------------------ *)

Section Debounce.

Variable fallback : GitStatus -> string.
Variable E : Type.
Variable respond : forall R, Call R -> E -> Outcome R * E.

Lemma tracked_cleared (w : World E) (id : nat) :
  tracked w -> _refreshTimeout (provider w) = Some id ->
  filter (fun tm => negb (pendingTimer id tm)) (timers w) = [].
Proof.
  unfold tracked. intros Htr Hid.
  induction (timers w) as [|tm l IH]; cbn; [reflexivity|].
  assert (Htm : fst tm = id).
  { specialize (Htr tm (or_introl eq_refl)). congruence. }
  unfold pendingTimer at 1. rewrite Htm, Nat.eqb_refl. cbn.
  apply IH. intros tm' Hin. apply Htr. right. exact Hin.
Qed.

Lemma tracked_none (w : World E) :
  tracked w -> _refreshTimeout (provider w) = None -> timers w = [].
Proof.
  unfold tracked. intros Htr Hnone.
  destruct (timers w) as [|tm l]; [reflexivity|].
  specialize (Htr tm (or_introl eq_refl)). congruence.
Qed.

(** A notification cancels the pending timeout, if any, and starts a new
    one, due 1000 ms later. *)
Lemma fileChanged_rearms (w : World E) :
  watching w = true -> tracked w ->
  step fallback respond FileChanged w
  = {| provider := set_refreshTimeout (Some (timerSeq w)) (provider w);
       clock := clock w; sources := sources w;
       timers := [(timerSeq w, clock w + 1000)];
       timerSeq := S (timerSeq w); watching := watching w;
       workspace := workspace w; trace := trace w; tasks := tasks w;
       env := env w |}.
Proof.
  intros Hwatch Htr. unfold step. rewrite Hwatch.
  unfold spawn, debouncedRefresh.
  destruct (_refreshTimeout (provider w)) as [id|] eqn:Hrt.
  - cbn. rewrite Hrt. cbn. world_ext.
    rewrite (tracked_cleared w id Htr Hrt). reflexivity.
  - cbn. rewrite Hrt. cbn. world_ext.
    rewrite (tracked_none w Htr Hrt). reflexivity.
Qed.

Lemma tick_before_due (w : World E) (id : nat) (due t : Z) :
  timers w = [(id, due)] -> clock w <= t < due ->
  tick t w = with_clock E t w.
Proof.
  intros Htm Ht. unfold tick.
  destruct (t <? clock w) eqn:Hlt; [apply Z.ltb_lt in Hlt; lia|].
  rewrite Htm. cbn.
  destruct (due <=? t) eqn:Hdue; [apply Z.leb_le in Hdue; lia|].
  reflexivity.
Qed.

Lemma tick_fires (w : World E) (id : nat) (due t : Z) :
  timers w = [(id, due)] -> clock w <= due <= t ->
  tick t w
  = with_clock E t
      (spawn refreshTimeoutCallback
         (log (TimeoutFired id due)
            (with_clock E due (with_timers E (fun _ => []) w)))).
Proof.
  intros Htm Ht. unfold tick.
  destruct (t <? clock w) eqn:Hlt; [apply Z.ltb_lt in Hlt; lia|].
  rewrite Htm. cbn [filter snd].
  destruct (due <=? t) eqn:Hdue; [|apply Z.leb_gt in Hdue; lia].
  cbn [fold_left]. unfold fire. rewrite Htm. cbn [existsb fst snd].
  unfold pendingTimer at 1. cbn [fst]. rewrite Nat.eqb_refl. cbn [orb].
  f_equal. f_equal. f_equal.
  apply world_eq; cbn; try reflexivity.
  - lia.
  - rewrite Htm. cbn. unfold pendingTimer. cbn. rewrite Nat.eqb_refl. reflexivity.
Qed.

(** The callback invalidates the cache; whatever it goes on to do, no
    timeout is started or fired by it. *)
Lemma callback_invalidates (w : World E) :
  let w' := spawn refreshTimeoutCallback w in
  _cachedStatus (provider w') = None
  /\ firings (trace w') = firings (trace w)
  /\ timers w' = timers w
  /\ clock w' = clock w.
Proof.
  unfold spawn, refreshTimeoutCallback, refresh, _loadContent.
  cbn.
  destruct (_isVisible (provider w)) eqn:Hvis; cbn.
  - destruct (_view (provider w)) eqn:Hview; cbn.
    + rewrite Hvis. cbn. unfold firings. rewrite flat_map_app. cbn.
      rewrite app_nil_r. auto.
    + auto.
  - auto.
Qed.

Lemma firings_app (l1 l2 : list Effect) :
  firings (l1 ++ l2) = firings l1 ++ firings l2.
Proof. apply flat_map_app. Qed.

Lemma armed_tracked (id : nat) (t : Z) (w : World E) :
  armed id t w -> tracked w.
Proof.
  intros (Htm & Hrt & _ & _) tm Hin. rewrite Htm in Hin.
  destruct Hin as [<-|[]]. exact Hrt.
Qed.

Lemma last_cons {A} (a d : A) (l : list A) : last (a :: l) d = last l a.
Proof.
  revert a d. induction l as [|b l IH]; intros a d; [reflexivity|].
  change (last (a :: b :: l) d) with (last (b :: l) d).
  rewrite (IH b d), (IH b a). reflexivity.
Qed.

(** Notifications less than a quiet period apart keep pushing the single
    pending timeout back, and none fires. *)
Lemma burst_keeps_armed (times : list Z) (w : World E) (id : nat) (t : Z) :
  armed id t w -> closelySpaced t times ->
  exists id',
    armed id' (last times t) (steps fallback respond (burst times) w)
    /\ firings (trace (steps fallback respond (burst times) w)) = firings (trace w).
Proof.
  revert w id t. induction times as [|t' rest IH]; intros w id t Harmed Hsp.
  - exists id. split; [exact Harmed|reflexivity].
  - destruct Hsp as [Ht' Hrest].
    destruct Harmed as (Htm & Hrt & Hwatch & Hclock).
    change (burst (t' :: rest)) with (Tick t' :: FileChanged :: burst rest).
    rewrite !steps_cons.
    change (step fallback respond (Tick t') w) with (tick t' w).
    rewrite (tick_before_due w id (t + 1000) t' Htm) by lia.
    assert (Htr : tracked (with_clock E t' w)).
    { intros tm Hin. cbn in Hin. rewrite Htm in Hin.
      destruct Hin as [<-|[]]. exact Hrt. }
    rewrite (fileChanged_rearms (with_clock E t' w) Hwatch Htr).
    rewrite last_cons.
    match goal with
    | |- context [steps _ _ (burst rest) ?w2] =>
        destruct (IH w2 (timerSeq w) t') as (id' & Harmed' & Hfir);
          [ repeat split; cbn; auto | exact Hrest | ]
    end.
    exists id'. split; [exact Harmed'|]. rewrite Hfir. reflexivity.
Qed.

(** *** Every reachable state tracks its pending timeout *)

Ltac quiet_tac :=
  repeat first
    [ only_step
    | match goal with
      | |- quiet _ _ => cbn; first [ exact Logic.I | intros; reflexivity ]
      end ].

Lemma quiet_getHtmlContent : only quiet _getHtmlContent.
Proof. unfold _getHtmlContent. cbv zeta. quiet_tac. Qed.

Lemma quiet_loadContent : only quiet _loadContent.
Proof. unfold _loadContent. quiet_tac. apply quiet_getHtmlContent. Qed.

Lemma quiet_refresh : only quiet refresh.
Proof. unfold refresh. quiet_tac. apply quiet_loadContent. Qed.

Ltac quiet_all :=
  quiet_tac; try apply quiet_refresh; try apply quiet_loadContent; try exact tt.

Lemma quiet_onDidReceiveMessage (data : Msg.t) :
  only quiet (onDidReceiveMessage fallback data).
Proof.
  unfold onDidReceiveMessage. apply only_try_catch; [|intros; quiet_tac].
  destruct data;
    unfold _handleStageAll, _handleStageFile, _handleUnstageFile, _handleCommit,
      _handleCommitAndPush, _handlePush, _handlePull, _handleFetch, _handleDiscard,
      _handleOpenDiff, _handleCreateBranch, _handleSwitchBranch, _handleDeleteBranch,
      _handleLoadMore, _handleOpenCommitDiff, _handleGenerateCommitMessage,
      _handleStopGeneration, offerFallback;
    quiet_all.
Qed.

Lemma quiet_onDidChangeVisibility (visible : bool) :
  only quiet (onDidChangeVisibility visible).
Proof. unfold onDidChangeVisibility. quiet_all. Qed.

Lemma quiet_resolveWebviewView (visible : bool) :
  only quiet (resolveWebviewView visible).
Proof. unfold resolveWebviewView. quiet_all. Qed.

Lemma quiet_startFileWatcher : only quiet startFileWatcher.
Proof. unfold startFileWatcher. quiet_all. Qed.

Lemma quiet_refreshTimeoutCallback : only quiet refreshTimeoutCallback.
Proof. unfold refreshTimeoutCallback. quiet_all. Qed.

Lemma perform_quiet {X} (a : Action X) (w : World E) :
  quiet X a ->
  timers (snd (perform a w)) = timers w
  /\ _refreshTimeout (provider (snd (perform a w))) = _refreshTimeout (provider w).
Proof. destruct a; cbn; intros H; auto; contradiction. Qed.

Lemma run_quiet {A} (p : Prog A) (w : World E) :
  only quiet p ->
  timers (fst (run p w)) = timers w
  /\ _refreshTimeout (provider (fst (run p w))) = _refreshTimeout (provider w).
Proof.
  revert w. induction p as [a|e|X a k IH|R c k IH]; intros w Hp; cbn in *; auto.
  destruct Hp as [Ha Hk].
  destruct (perform_quiet a w Ha) as [Htm Hrt].
  destruct (perform a w) as [x w1]. cbn in *.
  destruct (IH x w1 (Hk x)) as [Htm' Hrt'].
  rewrite Htm', Hrt'. auto.
Qed.

Lemma tracked_same (w w' : World E) :
  timers w' = timers w ->
  _refreshTimeout (provider w') = _refreshTimeout (provider w) ->
  tracked w -> tracked w'.
Proof.
  intros Htm Hrt Htr tm Hin. rewrite Htm in Hin. rewrite Hrt. apply Htr, Hin.
Qed.

Lemma spawn_settledTimers (p : Prog unit) (w : World E) :
  only quiet p -> settledTimers w -> settledTimers (spawn p w).
Proof.
  intros Hp [Htr Htasks]. unfold spawn.
  destruct (run_quiet p w Hp) as [Htm Hrt].
  pose proof (run_tasks p w) as Ht.
  pose proof (run_only quiet p w Hp) as Hk.
  destruct (run p w) as [w' s]. cbn in *.
  assert (Htr' : tracked w') by (apply (tracked_same w); assumption).
  destruct s as [a|err|R c k]; cbn.
  - split; [exact Htr' | rewrite Ht; exact Htasks].
  - split; [exact Htr' | rewrite Ht; exact Htasks].
  - split.
    + apply (tracked_same w'); auto.
    + cbn. rewrite Ht. apply Forall_app. split; [exact Htasks|].
      constructor; [exact Hk|constructor].
Qed.

Lemma settle_settledTimers (i : nat) (w : World E) :
  settledTimers w -> settledTimers (settle respond i w).
Proof.
  intros [Htr Htasks]. unfold settle.
  destruct (nth_error (tasks w) i) as [[[R c k]|]|] eqn:Hi; try (split; assumption).
  destruct (respond R c (env w)) as [o e'].
  assert (Hk : only quiet (k o)).
  { rewrite Forall_forall in Htasks. apply (Htasks _ (nth_error_In _ _ Hi)). }
  destruct (run_quiet (k o) (with_env E e' w) Hk) as [Htm Hrt].
  pose proof (run_tasks (k o) (with_env E e' w)) as Ht.
  pose proof (run_only quiet (k o) (with_env E e' w) Hk) as Hk'.
  destruct (run (k o) (with_env E e' w)) as [w' s]. cbn in *.
  split.
  - apply (tracked_same w); assumption.
  - cbn. rewrite Ht. apply Forall_update; [exact Htasks|].
    destruct s; cbn; auto.
Qed.

Lemma fire_settledTimers (tm : nat * Z) (w : World E) :
  settledTimers w -> settledTimers (fire tm w).
Proof.
  intros [Htr Htasks]. unfold fire. destruct (existsb _ _); [|split; assumption].
  apply spawn_settledTimers; [apply quiet_refreshTimeoutCallback|].
  split; [|exact Htasks].
  intros tm' Hin. cbn in Hin. apply filter_In in Hin. apply Htr, Hin.
Qed.

Lemma tick_settledTimers (t : Z) (w : World E) :
  settledTimers w -> settledTimers (tick t w).
Proof.
  intros Hw. unfold tick. destruct (t <? clock w); [exact Hw|].
  generalize (filter (fun tm => snd tm <=? t) (timers w)). intros due.
  revert w Hw. induction due as [|tm due IH]; intros w Hw; cbn [fold_left].
  - destruct Hw as [Htr Htasks]. split; assumption.
  - apply (IH (fire tm w)), fire_settledTimers, Hw.
Qed.

Lemma tracked_fewer (w w' : World E) :
  (forall tm, In tm (timers w') -> In tm (timers w)) ->
  _refreshTimeout (provider w') = _refreshTimeout (provider w) ->
  tracked w -> tracked w'.
Proof.
  intros Htm Hrt Htr tm Hin. rewrite Hrt. apply Htr, Htm, Hin.
Qed.

Lemma dispose_settledTimers (w : World E) :
  settledTimers w -> settledTimers (spawn dispose w).
Proof.
  intros [Htr Htasks]. unfold spawn, dispose. cbn.
  destruct (_fileWatcher (provider w)); cbn;
    destruct (_refreshTimeout (provider w)) eqn:Hrt; cbn;
    (split; [|exact Htasks]);
    apply (tracked_fewer w); cbn; auto;
    intros tm Hin; apply filter_In in Hin; apply Hin.
Qed.

Lemma step_settledTimers (ev : Event) (w : World E) :
  settledTimers w -> settledTimers (step fallback respond ev w).
Proof.
  intros Hw. destruct ev; unfold step.
  - apply spawn_settledTimers; [apply quiet_resolveWebviewView|exact Hw].
  - destruct (_view (provider w)); [|exact Hw].
    apply spawn_settledTimers; [apply quiet_onDidChangeVisibility|exact Hw].
  - destruct (_view (provider w)); [|exact Hw].
    apply spawn_settledTimers; [apply quiet_onDidReceiveMessage|exact Hw].
  - apply spawn_settledTimers; [apply quiet_startFileWatcher|exact Hw].
  - destruct (watching w) eqn:Hwatch; [|exact Hw].
    destruct Hw as [Htr Htasks].
    pose proof (fileChanged_rearms w Hwatch Htr) as Hstep.
    unfold step in Hstep. rewrite Hwatch in Hstep. rewrite Hstep.
    split; [|exact Htasks].
    intros tm Hin. cbn in Hin. destruct Hin as [<-|[]]. reflexivity.
  - apply dispose_settledTimers, Hw.
  - apply spawn_settledTimers; [apply quiet_refresh|exact Hw].
  - apply tick_settledTimers, Hw.
  - apply settle_settledTimers, Hw.
Qed.

Lemma reachable_tracked (workspaceFolders : bool) (e : E) (evs : list Event) :
  tracked (steps fallback respond evs (initial workspaceFolders e)).
Proof.
  cut (settledTimers (steps fallback respond evs (initial workspaceFolders e)));
    [intros [H _]; exact H|].
  assert (H0 : settledTimers (initial workspaceFolders e))
    by (split; [intros tm []|constructor]).
  revert H0. generalize (initial workspaceFolders e).
  induction evs as [|ev evs IH]; intros w Hw; cbn; [exact Hw|].
  apply IH, step_settledTimers, Hw.
Qed.

(** C5. In any reachable state with a live watcher, notifications arrive
    now and then at [times], each less than 1000 ms after the one before.
    The first one leaves exactly one pending timeout, due 1000 ms later,
    whatever was pending before; once the clock has passed the last
    notification by 1000 ms, exactly one timeout callback has run since
    the first notification, at 1000 ms after the last one; it has cleared
    the cached status, and no timeout is pending any more. *)
Theorem debounce_single_invalidation
        (workspaceFolders : bool) (e : E) (evs : list Event) (times : list Z) (T : Z) :
  let w := steps fallback respond evs (initial workspaceFolders e) in
  watching w = true ->
  closelySpaced (clock w) times ->
  last times (clock w) + 1000 <= T ->
  let w1 := step fallback respond FileChanged w in
  let w' := steps fallback respond (burst times ++ [Tick T]) w1 in
  timers w1 = [(timerSeq w, clock w + 1000)]
  /\ firings (trace w') = firings (trace w) ++ [last times (clock w) + 1000]
  /\ _cachedStatus (provider w') = None
  /\ timers w' = [].
Proof.
  intros w Hwatch Hsp HT w1 w'.
  pose proof (reachable_tracked workspaceFolders e evs) as Htr. fold w in Htr.
  assert (Hw1 : armed (timerSeq w) (clock w) w1 /\ trace w1 = trace w).
  { subst w1. rewrite (fileChanged_rearms w Hwatch Htr).
    repeat split; cbn; auto. }
  destruct Hw1 as [Harmed Htrace1].
  split; [apply Harmed|].
  destruct (burst_keeps_armed times w1 _ _ Harmed Hsp) as (id' & Harmed' & Hfir).
  subst w'. rewrite steps_app.
  set (w2 := steps fallback respond (burst times) w1) in *.
  destruct Harmed' as (Htm2 & Hrt2 & Hwatch2 & Hclock2).
  rewrite steps_cons, steps_nil.
  change (step fallback respond (Tick T) w2) with (tick T w2).
  rewrite (tick_fires w2 id' (last times (clock w) + 1000) T Htm2) by lia.
  match goal with
  | |- context [spawn refreshTimeoutCallback ?w3] =>
      destruct (callback_invalidates w3) as (Hcache & Hfir3 & Htm3 & _)
  end.
  cbn [provider trace timers with_clock].
  split; [|split].
  - rewrite Hfir3. cbn [trace log with_clock with_timers].
    rewrite firings_app, Hfir, Htrace1. reflexivity.
  - exact Hcache.
  - rewrite Htm3. reflexivity.
Qed.

End Debounce.

(* ------------------------------------------------------------------ *)
(** ** The cached status                                               *)
(* ------------------------------------------------------------------ *)

(** The comparison made by [_getHtmlContent] is strict: a load that has
    been waiting for [isGitRepository] for 1999 ms serves the cached
    status, one that has been waiting for 2000 ms fetches. *)
Lemma cache_check_boundary :
  since (Scenario.loaded [Script.ok]) (Scenario.checkAfter 1999)
  = [Invoke isGitRepository; Invoke getBranches]
  /\ since (Scenario.loaded [Script.ok]) (Scenario.checkAfter 2000)
     = [Invoke isGitRepository; Invoke getGitStatus].
Proof. split; vm_compute; reflexivity. Qed.

(** C6. The age that [_getHtmlContent] compares with 2000 ms is measured
    from [_lastRefresh], which [_loadContent] sets to the current time
    just before the comparison; it is not the age of the snapshot.  Here
    the snapshot [s0] was recorded by the load at time 1000000; the
    [loadMore] handled at time 1010000, when the repository reports [s1],
    issues no [getGitStatus] and renders the ten seconds old [s0]. *)
Theorem stale_snapshot_served_after_ten_seconds :
  _cachedStatus (provider Scenario.beforeLoadMore) = Some Scenario.s0
  /\ _lastRefresh (provider Scenario.beforeLoadMore) = 1000000
  /\ clock Scenario.loadMoreLater = 1010000
  /\ fst (Script.respond _ getGitStatus (env Scenario.beforeLoadMore))
     = Resolved Scenario.s1
  /\ since Scenario.beforeLoadMore Scenario.loadMoreLater
     = [Invoke isGitRepository; Invoke getBranches; Invoke getCurrentBranch;
        Invoke (getCommitHistory 50);
        SetHtml (ContentHtml
                   {| pg_isGitRepo := true;
                      pg_status := Some Scenario.s0;
                      pg_localBranches := [];
                      pg_remoteBranches := [];
                      pg_currentBranch := "main";
                      pg_commits := [];
                      pg_activeTab := "changes" |})]
  /\ filter isStatusFetch (since Scenario.beforeLoadMore Scenario.loadMoreLater) = []
  /\ forallb idle (tasks Scenario.loadMoreLater) = true.
Proof. repeat split; vm_compute; reflexivity. Qed.

(* ------------------------------------------------------------------ *)
(** ** Loading states of the page                                      *)
(* ------------------------------------------------------------------ *)

(** C2. The row of branch [feature] is clicked: its element
    [branch-feature] gets the loading class and [switchBranch] is
    posted.  The checkout is rejected; the listener shows the error and
    posts [clearAllLoading], whose fixed list of ids does not contain
    the row: the handler has ended and the row is still loading. *)
Theorem branch_row_left_loading :
  Client.document Scenario.page
  = Client.document (Client.deliver (trace Scenario.beforeCheckout)
                                    (Client.load LoadingHtml))
  /\ Client.isLoading Scenario.page "branch-feature" = false
  /\ Client.isLoading (fst Scenario.branchClicked) "branch-feature" = true
  /\ snd Scenario.branchClicked = [Msg.switchBranch "feature"]
  /\ since Scenario.beforeCheckout Scenario.checkoutFailed
     = [Invoke (checkoutBranch "feature");
        ShowErrorMessage "GitShift: pathspec 'feature' did not match" false;
        PostMessage Post.clearAllLoading]
  /\ forallb idle (tasks Scenario.checkoutFailed) = true
  /\ Client.isLoading Scenario.pageAfterCheckout "branch-feature" = true.
Proof. repeat split; vm_compute; reflexivity. Qed.

(* ------------------------------------------------------------------ *)
(** ** Invalidation while the view is hidden                           *)
(* ------------------------------------------------------------------ *)


Section Visibility.

Variable fallback : GitStatus -> string.
Variable E : Type.
Variable respond : forall R, Call R -> E -> Outcome R * E.


(** A load that was in flight when the view was hidden refills the
    cache when it resumes after the invalidation.  The view is shown
    5000 ms after the last refresh, when the repository reports [s1]: the
    load that starts finds the refilled cache, issues no [getGitStatus]
    and keeps [s0]. *)
Lemma load_in_flight_refills_cache :
  _isVisible (provider InFlight.invalidated) = false
  /\ _cachedStatus (provider InFlight.invalidated) = None
  /\ map idle (tasks InFlight.invalidated) = [true; false]
  /\ _cachedStatus (provider InFlight.resumed) = Some Scenario.s0
  /\ clock InFlight.shownLater - _lastRefresh (provider InFlight.resumed) = 5000
  /\ fst (Script.respond _ getGitStatus (env InFlight.shownLater))
     = Resolved Scenario.s1
  /\ since InFlight.resumed InFlight.shownLater
     = [Invoke isGitRepository; Invoke getBranches]
  /\ _cachedStatus (provider InFlight.shownLater) = Some Scenario.s0.
Proof. repeat split; vm_compute; reflexivity. Qed.


End Visibility.

(* ------------------------------------------------------------------ *)
(** ** Overlapping generations                                         *)
(* ------------------------------------------------------------------ *)

(** A second [generateCommitMessage] arrives while the first request is
    waiting for the language model.  Handling it creates a second
    cancellation source and leaves the first one neither cancelled nor
    disposed; it posts nothing.  When the language model then answers the
    first request, its [commitMessageGenerated] and its [clearLoading]
    are posted all the same, while the second request is still pending. *)
Lemma second_generation_does_not_stop_first :
  map idle (tasks Scenario.secondGeneration) = [true; false; false]
  /\ sources Scenario.secondGeneration
     = [ {| cancelled := false; disposed := false |};
         {| cancelled := false; disposed := false |} ]
  /\ _generationCancelToken (provider Scenario.secondGeneration) = Some 1%nat
  /\ filter isGenerated (since (Scenario.loaded []) Scenario.secondGeneration) = []
  /\ since Scenario.secondGeneration Scenario.firstAnswered
     = [PostMessage (Post.commitMessageGenerated "first");
        PostMessage (Post.clearLoading "generateMsgBtn")]
  /\ map idle (tasks Scenario.firstAnswered) = [true; true; false].
Proof. repeat split; vm_compute; reflexivity. Qed.

(** C1.  The page lets a second generation start while the first is in
    flight: the first click binds the generate button to
    [stopGeneration], but the [clearAllLoading] posted for a failed
    [pull] binds it back, and the next click posts
    [generateCommitMessage] again.  The second request puts its source in
    the slot without touching the first.  When the language model answers
    the first request, its [commitMessageGenerated] is posted all the
    same, and its [finally] disposes of the source it finds in the slot,
    which is the second's, and empties the slot.  When the status arrives
    for the second request the slot is empty: reading [token] throws, the
    generator is never called and the user is offered the basic message
    instead.  In the end no handler is suspended, the first source has
    never been disposed of, and the second was disposed of by the first
    request. *)
Theorem overlapping_generations_dispose_wrong_source :
  snd Overlap.firstClick = [Msg.generateCommitMessage]
  /\ Client.stopBound (fst Overlap.pullClick) = true
  /\ since (Scenario.loaded Overlap.script) Overlap.pullFailed
     = [Invoke getGitStatus;
        Invoke (generateDetailedCommitMessage Scenario.s0 0);
        Invoke pull;
        ShowErrorMessage "GitShift: no remote configured" false;
        PostMessage Post.clearAllLoading]
  /\ Client.stopBound Overlap.pageAfterPull = false
  /\ snd Overlap.secondClick = [Msg.generateCommitMessage]
  /\ map idle (tasks Overlap.secondRequested) = [true; false; true; false]
  /\ sources Overlap.secondRequested
     = [ {| cancelled := false; disposed := false |};
         {| cancelled := false; disposed := false |} ]
  /\ _generationCancelToken (provider Overlap.secondRequested) = Some 1%nat
  /\ since Overlap.secondRequested Overlap.firstAnswered
     = [PostMessage (Post.commitMessageGenerated "first");
        PostMessage (Post.clearLoading "generateMsgBtn")]
  /\ sources Overlap.firstAnswered
     = [ {| cancelled := false; disposed := false |};
         {| cancelled := false; disposed := true |} ]
  /\ _generationCancelToken (provider Overlap.firstAnswered) = None
  /\ map idle (tasks Overlap.firstAnswered) = [true; true; true; false]
  /\ since Overlap.firstAnswered Overlap.secondResumed = [Invoke getGitStatus]
  /\ since Overlap.secondResumed Overlap.secondEnded
     = [Invoke (showErrorMessage
                  "Failed to generate AI commit message: Cannot read properties of undefined (reading 'token'). Would you like a simple message?"
                  ["Yes"; "Cancel"]);
        PostMessage (Post.clearLoading "generateMsgBtn")]
  /\ map idle (tasks Overlap.secondEnded) = [true; true; true; true]
  /\ sources Overlap.secondEnded
     = [ {| cancelled := false; disposed := false |};
         {| cancelled := false; disposed := true |} ].
Proof. repeat split; vm_compute; reflexivity. Qed.

Section Generation.

Variable fallback : GitStatus -> string.
Variable E : Type.
Variable respond : forall R, Call R -> E -> Outcome R * E.

Lemma addClass_present (id : string) (l : list string) :
  existsb (String.eqb id) (Client.addClass id l) = true.
Proof.
  unfold Client.addClass.
  destruct (existsb (String.eqb id) l) eqn:Hin; [exact Hin|].
  rewrite existsb_app. cbn [existsb]. rewrite String.eqb_refl.
  apply orb_true_r.
Qed.

(** The generate button and the textarea are emitted together. *)
Lemma generate_button_with_textarea (doc : Html) :
  Client.hasElement doc "generateMsgBtn" = true ->
  Client.hasElement doc "commitMessage" = true.
Proof.
  destruct doc as [|p]; cbn; [discriminate|].
  destruct (pg_isGitRepo p); cbn; [|discriminate].
  intros H. exact H.
Qed.

(** The provider has one slot for the cancellation source of a
    generation.  Handling [generateCommitMessage] creates a fresh source
    and stores it in the slot, replacing what was there; the sources
    created before are left as they were, nothing is posted, the handlers
    already suspended stay suspended, and the new handler waits for the
    status.  On the page, a click on the generate button binds it to
    [stopGeneration]; it stays bound until the loading state of the
    button is cleared or the page is rendered again. *)
Theorem generation_replaces_slot_page_gates
        (w : World E) (c : Client.t) :
  _view (provider w) = true ->
  Client.hasElement (Client.document c) "generateMsgBtn" = true ->
  Client.stopBound c = false ->
  let w' := step fallback respond (DidReceiveMessage Msg.generateCommitMessage) w in
  _generationCancelToken (provider w') = Some (List.length (sources w))
  /\ sources w' = sources w ++ [{| cancelled := false; disposed := false |}]
  /\ trace w' = trace w ++ [Invoke getGitStatus]
  /\ (exists k, tasks w' = tasks w ++ [Some (Pending getGitStatus k)])
  /\ snd (Client.clickGenerate c) = [Msg.generateCommitMessage]
  /\ Client.isLoading (fst (Client.clickGenerate c)) "generateMsgBtn" = true
  /\ snd (Client.clickGenerate (fst (Client.clickGenerate c))) = [Msg.stopGeneration].
Proof.
  intros Hview Hbtn Hbound w'.
  assert (Hw : exists k,
            w' = {| provider := set_generationCancelToken
                                  (Some (List.length (sources w))) (provider w);
                    clock := clock w;
                    sources := sources w ++ [{| cancelled := false; disposed := false |}];
                    timers := timers w; timerSeq := timerSeq w;
                    watching := watching w; workspace := workspace w;
                    trace := trace w ++ [Invoke getGitStatus];
                    tasks := tasks w ++ [Some (Pending getGitStatus k)];
                    env := env w |}).
  { subst w'. eexists. unfold step. rewrite Hview.
    unfold spawn, onDidReceiveMessage, _handleGenerateCommitMessage.
    cbn. rewrite Hview. cbn. world_ext. }
  destruct Hw as [k Hw]. rewrite Hw. cbn.
  pose proof (generate_button_with_textarea _ Hbtn) as Htext.
  assert (Hclick : Client.clickGenerate c
                   = (Client.showLoading "generateMsgBtn" c, [Msg.generateCommitMessage])).
  { unfold Client.clickGenerate, Client.fillCommitMessage.
    rewrite Hbtn, Hbound, Htext. reflexivity. }
  rewrite Hclick. cbn [fst snd].
  assert (Hshow : Client.showLoading "generateMsgBtn" c
                  = {| Client.document := Client.document c;
                       Client.loading := Client.addClass "generateMsgBtn" (Client.loading c);
                       Client.stopBound := true;
                       Client.commitMessage := Client.commitMessage c |}).
  { unfold Client.showLoading. rewrite Hbtn. reflexivity. }
  repeat split.
  - eexists. reflexivity.
  - rewrite Hshow. unfold Client.isLoading. cbn [Client.loading].
    apply addClass_present.
  - rewrite Hshow. unfold Client.clickGenerate. cbn. rewrite Hbtn. reflexivity.
Qed.

End Generation.

(* ------------------------------------------------------------------ *)
(** ** The basic commit message                                        *)
(* ------------------------------------------------------------------ *)

(** The sample is categorised docs, fix, test; the message is built from
    the fix entry, not from the test entry. *)
Lemma sample_message_is_fix :
  map (Client.categorize []) sampleStaged = ["docs"; "fix"; "test"]%string
  /\ Client.generateCommitMessage sampleStaged [] = "fix: app.ts"%string
  /\ String.prefix "test" (Client.generateCommitMessage sampleStaged []) = false.
Proof. repeat split; vm_compute; reflexivity. Qed.

Lemma pushTo_entries (type filename : string) (g : string -> list string)
      (keys : list string) :
  Client.pushTo type filename (map (fun k => (k, g k)) keys)
  = map (fun k => (k, if (k =? type)%string then g k ++ [filename] else g k)) keys.
Proof.
  unfold Client.pushTo. rewrite map_map. apply map_ext. intros k. cbn [fst snd].
  destruct (k =? type)%string; reflexivity.
Qed.

Lemma categories_by_type (allUntracked files : list string)
      (g : string -> list string) (keys : list string) :
  fold_left (fun categories file =>
               Client.pushTo (Client.categorize allUntracked file)
                             (Js.pop (Js.split "/" file)) categories)
            files (map (fun k => (k, g k)) keys)
  = map (fun k => (k, g k ++ filesOfType allUntracked k files)) keys.
Proof.
  revert g. induction files as [|file rest IH]; intros g; cbn [fold_left].
  - apply map_ext. intros k. unfold filesOfType. cbn. rewrite app_nil_r. reflexivity.
  - rewrite pushTo_entries, IH. apply map_ext. intros k.
    unfold filesOfType. cbn [filter].
    rewrite (String.eqb_sym (Client.categorize allUntracked file) k).
    destruct (k =? Client.categorize allUntracked file)%string; cbn [map].
    + rewrite <- app_assoc. reflexivity.
    + reflexivity.
Qed.

Lemma firstNonEmpty_find (h : string -> list string) (keys : list string) :
  Client.firstNonEmpty (map (fun k => (k, h k)) keys)
  = match find (fun k => Client.nonEmpty (h k)) keys with
    | Some type => Client.entryMessage type (h type)
    | None => EmptyString
    end.
Proof.
  induction keys as [|k keys IH]; cbn [map Client.firstNonEmpty find]; [reflexivity|].
  unfold Client.nonEmpty at 1.
  destruct (0 <? List.length (h k))%nat; [reflexivity|exact IH].
Qed.

Lemma categorize_in_entryOrder (allUntracked : list string) (file : string) :
  In (Client.categorize allUntracked file) entryOrder.
Proof.
  unfold Client.categorize, entryOrder.
  destruct (Client.reTest file); [cbn; tauto|].
  destruct (Client.reDocs file); [cbn; tauto|].
  destruct (Client.reStyle file); [cbn; tauto|].
  destruct (Client.reChore file); [cbn; tauto|].
  destruct (Js.includes allUntracked file && Client.reFeature file); [cbn; tauto|].
  destruct (negb (Js.includes allUntracked file)); cbn; tauto.
Qed.

Lemma entryMessage_truthy (type : string) (fileList : list string) :
  Js.truthy (Client.entryMessage type fileList) = true.
Proof.
  unfold Client.entryMessage, Js.truthy.
  destruct type; reflexivity.
Qed.

(** C4, as the code has it.  The message is a function of the staged and
    untracked files.  Each file is categorised by the chain test, docs,
    style, chore, feat (new files), fix, refactor; the message is then
    built from the first category, in the order feat, fix, docs, style,
    test, chore, refactor, that received a file, and lists the names of
    the files of that category.  For the sample it is ["fix: app.ts"]. *)
Theorem message_from_first_entry_in_key_order (files allUntracked : list string) :
  files <> [] ->
  (exists type,
      find (fun k => Client.nonEmpty (filesOfType allUntracked k files)) entryOrder
      = Some type
      /\ Client.generateCommitMessage files allUntracked
         = Client.entryMessage type (filesOfType allUntracked type files))
  /\ (forall file,
        Client.categorize allUntracked file
        = if Client.reTest file then "test"
          else if Client.reDocs file then "docs"
          else if Client.reStyle file then "style"
          else if Client.reChore file then "chore"
          else if Js.includes allUntracked file && Client.reFeature file then "feat"
          else if negb (Js.includes allUntracked file) then "fix"
          else "refactor")%string
  /\ Client.generateCommitMessage sampleStaged [] = "fix: app.ts"%string.
Proof.
  intros Hfiles. split; [|split; [reflexivity | vm_compute; reflexivity]].
  unfold Client.generateCommitMessage.
  destruct files as [|file rest]; [contradiction|]. cbn [List.length Nat.eqb].
  change Client.noCategories with (map (fun k => (k, @nil string)) entryOrder).
  rewrite categories_by_type. cbn [app]. rewrite firstNonEmpty_find.
  destruct (find (fun k => Client.nonEmpty (filesOfType allUntracked k (file :: rest)))
                 entryOrder) as [type|] eqn:Hfind.
  - exists type. split; [reflexivity|]. rewrite entryMessage_truthy. reflexivity.
  - exfalso.
    pose proof (find_none _ _ Hfind _ (categorize_in_entryOrder allUntracked file)) as Hk.
    unfold filesOfType in Hk. cbn [filter] in Hk.
    rewrite String.eqb_refl in Hk. discriminate Hk.
Qed.

(* ------------------------------------------------------------------ *)
(** ** The statements at sample inputs                                 *)
(* ------------------------------------------------------------------ *)

Lemma switchTab_only_sets_activeTab_at_sample :
  _view (provider (Scenario.loaded [])) = true
  /\ (let w := Scenario.loaded [] in
      let w' := Script.step (DidReceiveMessage (Msg.switchTab "commits")) w in
      w' = with_provider Script.t (set_activeTab "commits") w
      /\ _activeTab (provider w') = "commits"%string
      /\ _cachedStatus (provider w') = _cachedStatus (provider w)
      /\ _commitsLimit (provider w') = _commitsLimit (provider w)
      /\ _lastRefresh (provider w') = _lastRefresh (provider w)
      /\ _isVisible (provider w') = _isVisible (provider w)
      /\ trace w' = trace w
      /\ tasks w' = tasks w
      /\ env w' = env w).
Proof.
  split; [vm_compute; reflexivity|].
  apply (switchTab_only_sets_activeTab Script.fallback Script.t Script.respond
           (Scenario.loaded []) "commits").
  vm_compute; reflexivity.
Defined.

Lemma commit_blank_message_rejected_at_sample :
  _view (provider (Scenario.loaded [])) = true
  /\ Js.allWhiteSpace "   " = true
  /\ Client.hasElement (Client.document Scenario.page) "commitBtn" = true
  /\ (let w := Scenario.loaded [] in
      let w' := Script.step (DidReceiveMessage (Msg.commit "   ")) w in
      let shown := [ShowWarningMessage "Commit message cannot be empty";
                    PostMessage (Post.clearLoading "commitBtn")] in
      w' = {| provider := provider w; clock := clock w; sources := sources w;
              timers := timers w; timerSeq := timerSeq w; watching := watching w;
              workspace := workspace w; trace := trace w ++ shown;
              tasks := tasks w; env := env w |}
      /\ filter isCommitCall (trace w') = filter isCommitCall (trace w)
      /\ Client.isLoading (Client.deliver shown Scenario.page) "commitBtn" = false).
Proof.
  split; [vm_compute; reflexivity|].
  split; [vm_compute; reflexivity|].
  split; [vm_compute; reflexivity|].
  apply (commit_blank_message_rejected Script.fallback Script.t Script.respond
           (Scenario.loaded []) "   " Scenario.page);
    vm_compute; reflexivity.
Defined.

Lemma commitAndPush_push_rejected_at_sample :
  _view (provider Scenario.offline) = true
  /\ Js.allWhiteSpace "add app" = false
  /\ Repo.respond _ (commit "add app") (env Scenario.offline)
     = (Resolved tt, Scenario.committedOffline)
  /\ Repo.respond _ push Scenario.committedOffline
     = (Rejected Repo.unreachable, Scenario.committedOffline)
  /\ (let w := Scenario.offline in
      let n := List.length (tasks w) in
      let w' := steps Script.fallback Repo.respond
                  [DidReceiveMessage (Msg.commitAndPush "add app"); Settle n; Settle n] w in
      w' = {| provider := provider w; clock := clock w; sources := sources w;
              timers := timers w; timerSeq := timerSeq w; watching := watching w;
              workspace := workspace w;
              trace := trace w ++
                       [Invoke (commit "add app");
                        ShowInformationMessage "Changes committed";
                        Invoke push;
                        ShowErrorMessage
                          ("GitShift: " ++ err_message Repo.unreachable)%string true;
                        PostMessage Post.clearAllLoading];
              tasks := tasks w ++ [None];
              env := Scenario.committedOffline |}
      /\ errorsShown (trace w')
         = errorsShown (trace w)
           ++ [(("GitShift: " ++ err_message Repo.unreachable)%string, true)]
      /\ Repo.respond _ getGitStatus (env w')
         = Repo.respond _ getGitStatus Scenario.committedOffline)
  /\ ahead (Repo.status (env Scenario.offline)) = 0
  /\ ahead (Repo.status Scenario.committedOffline) = 1.
Proof.
  split; [vm_compute; reflexivity|].
  split; [vm_compute; reflexivity|].
  split; [vm_compute; reflexivity|].
  split; [vm_compute; reflexivity|].
  split; [|split; vm_compute; reflexivity].
  apply (commitAndPush_push_rejected Script.fallback Repo.t Repo.respond
           Scenario.offline "add app" Scenario.committedOffline
           Scenario.committedOffline Repo.unreachable);
    vm_compute; reflexivity.
Defined.

Lemma message_from_first_entry_in_key_order_at_sample :
  sampleStaged <> []
  /\ (exists type,
         find (fun k => Client.nonEmpty (filesOfType [] k sampleStaged)) entryOrder
         = Some type
         /\ Client.generateCommitMessage sampleStaged []
            = Client.entryMessage type (filesOfType [] type sampleStaged)).
Proof.
  split; [discriminate|].
  apply (message_from_first_entry_in_key_order sampleStaged []). discriminate.
Defined.

Lemma burstTimes_closelySpaced :
  closelySpaced (clock Scenario.watchingOnly) Scenario.burstTimes.
Proof. change (clock Scenario.watchingOnly) with 5000. cbn. lia. Defined.

Lemma burstTimes_over :
  last Scenario.burstTimes (clock Scenario.watchingOnly) + 1000 <= 7500.
Proof. change (clock Scenario.watchingOnly) with 5000. cbn. lia. Defined.

Lemma debounce_single_invalidation_at_sample :
  watching Scenario.watchingOnly = true
  /\ closelySpaced (clock Scenario.watchingOnly) Scenario.burstTimes
  /\ last Scenario.burstTimes (clock Scenario.watchingOnly) + 1000 <= 7500
  /\ (let w := Scenario.watchingOnly in
      let times := Scenario.burstTimes in
      let w1 := Script.step FileChanged w in
      let w' := Script.steps (burst times ++ [Tick 7500]) w1 in
      timers w1 = [(timerSeq w, clock w + 1000)]
      /\ firings (trace w') = firings (trace w) ++ [last times (clock w) + 1000]
      /\ _cachedStatus (provider w') = None
      /\ timers w' = []).
Proof.
  split; [vm_compute; reflexivity|].
  split; [exact burstTimes_closelySpaced|].
  split; [exact burstTimes_over|].
  exact (debounce_single_invalidation Script.fallback Script.t Script.respond
           true [] [StartFileWatcher; Tick 5000] Scenario.burstTimes 7500
           eq_refl burstTimes_closelySpaced burstTimes_over).
Defined.






Lemma generation_replaces_slot_page_gates_at_sample :
  _view (provider (Scenario.loaded [])) = true
  /\ Client.hasElement (Client.document Scenario.page) "generateMsgBtn" = true
  /\ Client.stopBound Scenario.page = false
  /\ (let w := Scenario.loaded [] in
      let c := Scenario.page in
      let w' := Script.step (DidReceiveMessage Msg.generateCommitMessage) w in
      _generationCancelToken (provider w') = Some (List.length (sources w))
      /\ sources w' = sources w ++ [{| cancelled := false; disposed := false |}]
      /\ trace w' = trace w ++ [Invoke getGitStatus]
      /\ (exists k, tasks w' = tasks w ++ [Some (Pending getGitStatus k)])
      /\ snd (Client.clickGenerate c) = [Msg.generateCommitMessage]
      /\ Client.isLoading (fst (Client.clickGenerate c)) "generateMsgBtn" = true
      /\ snd (Client.clickGenerate (fst (Client.clickGenerate c)))
         = [Msg.stopGeneration]).
Proof.
  split; [vm_compute; reflexivity|].
  split; [vm_compute; reflexivity|].
  split; [vm_compute; reflexivity|].
  apply (generation_replaces_slot_page_gates Script.fallback Script.t Script.respond
           (Scenario.loaded []) Scenario.page);
    vm_compute; reflexivity.
Defined.

Lemma commitsLimit_20_then_50_at_sample :
  _view (provider Scenario.resolved) = true
  /\ _commitsLimit
       (provider (Script.steps
                    [DidReceiveMessage Msg.loadMore; Settle 0;
                     DidReceiveMessage Msg.loadMore] Scenario.resolved)) = 50.
Proof.
  split; [vm_compute; reflexivity|].
  exact (proj2 (proj2 (proj2
           (commitsLimit_20_then_50 Script.fallback Script.t Script.respond
              true [] [ResolveWebviewView true]
              [Settle 0; DidReceiveMessage Msg.loadMore]))) eq_refl).
Defined.

(* ------------------------------------------------------------------ *)
(** ** Further properties: the page                                    *)
(* ------------------------------------------------------------------ *)

Lemma clearLoading_document (id : string) (c : Client.t) :
  Client.document (Client.clearLoading id c) = Client.document c.
Proof.
  unfold Client.clearLoading.
  destruct (negb (Client.hasElement (Client.document c) id)); reflexivity.
Qed.

Lemma removeClass_other (id id' : string) (l : list string) :
  id <> id' ->
  existsb (String.eqb id) (Client.removeClass id' l) = existsb (String.eqb id) l.
Proof.
  intros Hne. unfold Client.removeClass.
  induction l as [|x l IH]; cbn [filter existsb]; [reflexivity|].
  destruct (String.eqb x id') eqn:Hx; cbn [negb existsb].
  - apply String.eqb_eq in Hx. subst x.
    apply String.eqb_neq in Hne. rewrite Hne. exact IH.
  - rewrite IH. reflexivity.
Qed.

Lemma clearLoading_other (id id' : string) (c : Client.t) :
  id <> id' ->
  Client.isLoading (Client.clearLoading id' c) id = Client.isLoading c id.
Proof.
  intros Hne. unfold Client.clearLoading, Client.isLoading.
  destruct (negb (Client.hasElement (Client.document c) id')); [reflexivity|].
  cbn [Client.loading]. apply removeClass_other, Hne.
Qed.

Lemma clearLoading_stays_clear (id id' : string) (c : Client.t) :
  Client.isLoading c id = false ->
  Client.isLoading (Client.clearLoading id' c) id = false.
Proof.
  intros Hc. destruct (String.eqb id id') eqn:Heq.
  - apply String.eqb_eq in Heq. subst id'.
    unfold Client.clearLoading, Client.isLoading in *.
    destruct (negb (Client.hasElement (Client.document c) id)); [exact Hc|].
    cbn [Client.loading]. apply removeClass_absent.
  - apply String.eqb_neq in Heq. rewrite clearLoading_other; assumption.
Qed.

Lemma clearing_document (ids : list string) (c : Client.t) :
  Client.document (fold_left (fun c' id => Client.clearLoading id c') ids c)
  = Client.document c.
Proof.
  revert c. induction ids as [|x ids IH]; intros c; cbn [fold_left]; [reflexivity|].
  rewrite IH. apply clearLoading_document.
Qed.

Lemma clearing_stays_clear (ids : list string) (id : string) (c : Client.t) :
  Client.isLoading c id = false ->
  Client.isLoading (fold_left (fun c' x => Client.clearLoading x c') ids c) id = false.
Proof.
  revert c. induction ids as [|x ids IH]; intros c Hc; cbn [fold_left]; [exact Hc|].
  apply IH, clearLoading_stays_clear, Hc.
Qed.

Lemma clearing_listed (ids : list string) (id : string) (c : Client.t) :
  In id ids ->
  Client.hasElement (Client.document c) id = true ->
  Client.isLoading (fold_left (fun c' x => Client.clearLoading x c') ids c) id = false.
Proof.
  revert c. induction ids as [|x ids IH]; intros c Hin Hel; [contradiction|].
  cbn [fold_left]. destruct (String.eqb x id) eqn:Hx.
  - apply String.eqb_eq in Hx. subst x.
    apply clearing_stays_clear, clearLoading_clears, Hel.
  - destruct Hin as [Heq|Hin]; [subst x; rewrite String.eqb_refl in Hx; discriminate|].
    apply IH; [exact Hin|]. rewrite clearLoading_document. exact Hel.
Qed.

Lemma clearing_unlisted (ids : list string) (id : string) (c : Client.t) :
  ~ In id ids ->
  Client.isLoading (fold_left (fun c' x => Client.clearLoading x c') ids c) id
  = Client.isLoading c id.
Proof.
  revert c. induction ids as [|x ids IH]; intros c Hnin; cbn [fold_left]; [reflexivity|].
  rewrite IH by (intros H; apply Hnin; right; exact H).
  apply clearLoading_other. intros Heq. apply Hnin. left. symmetry. exact Heq.
Qed.

(** X1. On the page, [clearAllLoading] clears the loading state of each of
    the nine listed ids whose element exists, and leaves the loading state
    of every other element as it was; the document is not touched. *)
Theorem clearAllLoading_clears_listed_only (c : Client.t) (id : string) :
  let c' := Client.onMessage Post.clearAllLoading c in
  Client.document c' = Client.document c
  /\ (In id Client.clearAllIds ->
      Client.hasElement (Client.document c) id = true ->
      Client.isLoading c' id = false)
  /\ (~ In id Client.clearAllIds ->
      Client.isLoading c' id = Client.isLoading c id).
Proof.
  cbn [Client.onMessage]. split; [apply clearing_document|]. split.
  - apply clearing_listed.
  - apply clearing_unlisted.
Qed.







Lemma rowId_eqb (x y : string) :
  ("branch-" ++ x =? "branch-" ++ y)%string = (x =? y)%string.
Proof. reflexivity. Qed.

Lemma branchRow_find (p : Page) (x : string) :
  branchRow p ("branch-" ++ x)
  = find (fun b => (x =? Js.dashed (name b))%string) (pg_localBranches p).
Proof.
  unfold branchRow. induction (pg_localBranches p) as [|b l IH]; [reflexivity|].
  cbn [find]. rewrite rowId_eqb, IH. reflexivity.
Qed.

Lemma find_first_match (b : Branch) (l : list Branch) :
  In b l ->
  exists first,
    find (fun b' => (Js.dashed (name b) =? Js.dashed (name b'))%string) l = Some first
    /\ In first l
    /\ Js.dashed (name first) = Js.dashed (name b).
Proof.
  induction l as [|x l IH]; [contradiction|]. intros Hin. cbn [find].
  destruct (Js.dashed (name b) =? Js.dashed (name x))%string eqn:Hx.
  - exists x. split; [reflexivity|]. split; [left; reflexivity|].
    symmetry. apply String.eqb_eq. exact Hx.
  - destruct Hin as [->|Hin]; [rewrite String.eqb_refl in Hx; discriminate Hx|].
    destruct (IH Hin) as (first & Hfind & Hfirst & Hname).
    exists first. split; [exact Hfind|]. split; [right; exact Hfirst|exact Hname].
Qed.

(** The row ids are not unique: the names [feat/x] and [feat-x] give the
    same id, the element found under it is the row of [feat/x], and that
    is the row marked when [switchToBranchWithLoading] is called for
    [feat-x]. *)
Lemma dashed_row_ids_collide :
  Js.dashed "feat/x" = Js.dashed "feat-x"
  /\ branchRow collidingPage ("branch-" ++ Js.dashed "feat-x")
     = Some {| name := "feat/x"; current := true; remote := false |}
  /\ Client.loading
       (fst (Client.switchToBranchWithLoading "feat-x"
               (Client.load (ContentHtml collidingPage))))
     = ["branch-feat-x"%string]
  /\ snd (Client.switchToBranchWithLoading "feat-x"
            (Client.load (ContentHtml collidingPage)))
     = [Msg.switchBranch "feat-x"].
Proof. repeat split; vm_compute; reflexivity. Qed.

(** X3. [switchToBranchWithLoading] called with the name of a local branch
    of the document shown posts [switchBranch] with that name and marks
    as loading the element found under the id it computes from the name.
    That element exists: it is the first row of the branches tab whose
    branch has the same name once every character that is not a letter or
    a digit is replaced by a dash; it is the row of the branch itself
    when no other local branch has such a name. *)
Theorem switchToBranch_marks_first_row_with_id (c : Client.t) (p : Page) (b : Branch) :
  Client.document c = ContentHtml p ->
  pg_isGitRepo p = true ->
  In b (pg_localBranches p) ->
  let rowId := ("branch-" ++ Js.dashed (name b))%string in
  snd (Client.switchToBranchWithLoading (name b) c) = [Msg.switchBranch (name b)]
  /\ Client.isLoading (fst (Client.switchToBranchWithLoading (name b) c)) rowId = true
  /\ (exists first,
         branchRow p rowId = Some first
         /\ In first (pg_localBranches p)
         /\ Js.dashed (name first) = Js.dashed (name b))
  /\ ((forall b', In b' (pg_localBranches p) ->
                  Js.dashed (name b') = Js.dashed (name b) -> b' = b) ->
      branchRow p rowId = Some b).
Proof.
  intros Hdoc Hrepo Hin rowId.
  assert (Hel : Client.hasElement (Client.document c) rowId = true).
  { rewrite Hdoc. unfold Client.hasElement. rewrite Hrepo. cbn [andb].
    assert (Hrow : existsb (fun b' => (rowId =? "branch-" ++ Js.dashed (name b'))%string)
                           (pg_localBranches p) = true).
    { apply existsb_exists. exists b. split; [exact Hin|]. apply String.eqb_refl. }
    fold rowId. apply orb_true_iff. left. apply orb_true_iff. right.
    apply orb_true_iff. right. exact Hrow. }
  assert (Hfind : branchRow p rowId
                  = find (fun b' => (Js.dashed (name b) =? Js.dashed (name b'))%string)
                         (pg_localBranches p))
    by (apply branchRow_find).
  destruct (find_first_match b (pg_localBranches p) Hin) as (first & Hfirst & Hmem & Hname).
  split; [reflexivity|]. split; [|split].
  - unfold Client.switchToBranchWithLoading. cbn [fst]. fold rowId.
    unfold Client.setLoading. rewrite Hel. cbn [negb].
    unfold Client.isLoading. cbn [Client.loading]. apply addClass_present.
  - exists first. rewrite Hfind. split; [exact Hfirst|]. split; assumption.
  - intros Hunique. rewrite Hfind, Hfirst. f_equal. apply Hunique; assumption.
Qed.

(* ------------------------------------------------------------------ *)
(** ** Further properties: the basic commit message                    *)
(* ------------------------------------------------------------------ *)

Lemma prefix_append (a b : string) : String.prefix a (a ++ b) = true.
Proof.
  induction a as [|c a IH]; cbn; [destruct b; reflexivity|].
  destruct (ascii_dec c c) as [_|Hne]; [exact IH|contradiction].
Qed.

Lemma string_app_assoc (a b c : string) :
  ((a ++ b) ++ c)%string = (a ++ (b ++ c))%string.
Proof. induction a as [|x a IH]; cbn; [reflexivity|]. rewrite IH. reflexivity. Qed.

Lemma entryMessage_prefix (type : string) (fileList : list string) :
  String.prefix (type ++ ": ") (Client.entryMessage type fileList) = true.
Proof.
  unfold Client.entryMessage.
  rewrite <- string_app_assoc.
  apply prefix_append.
Qed.

(** X4. Whatever is staged, the basic message starts with one of the
    seven commit types followed by a colon and a space; with nothing
    staged it is ["chore: update files"]. *)
Theorem message_starts_with_a_type (files allUntracked : list string) :
  Client.generateCommitMessage [] allUntracked = "chore: update files"%string
  /\ exists type,
       In type entryOrder
       /\ String.prefix (type ++ ": ")
                        (Client.generateCommitMessage files allUntracked) = true.
Proof.
  split; [reflexivity|].
  destruct files as [|file rest].
  - exists "chore"%string. split; [cbn; tauto|reflexivity].
  - unfold Client.generateCommitMessage. cbn [List.length Nat.eqb].
    change Client.noCategories with (map (fun k => (k, @nil string)) entryOrder).
    rewrite categories_by_type. cbn [app]. rewrite firstNonEmpty_find.
    destruct (find (fun k => Client.nonEmpty (filesOfType allUntracked k (file :: rest)))
                   entryOrder) as [type|] eqn:Hfind.
    + exists type. split; [apply (find_some _ _ Hfind)|].
      rewrite entryMessage_truthy. apply entryMessage_prefix.
    + exists "chore"%string. split; [cbn; tauto|reflexivity].
Qed.

(** X5. Whether a staged file counts as new decides between the last
    three categories only: a file that is not among the untracked ones is
    never categorised feat or refactor, and one that is among them is
    never categorised fix. *)
Theorem newness_decides_feat_fix_refactor (allUntracked : list string) (file : string) :
  (Js.includes allUntracked file = false ->
   Client.categorize allUntracked file <> "feat"%string
   /\ Client.categorize allUntracked file <> "refactor"%string)
  /\ (Js.includes allUntracked file = true ->
      Client.categorize allUntracked file <> "fix"%string).
Proof.
  unfold Client.categorize.
  destruct (Client.reTest file), (Client.reDocs file), (Client.reStyle file),
    (Client.reChore file), (Client.reFeature file);
    split; intros Hnew; try rewrite Hnew; cbn; try split; discriminate.
Qed.

Lemma split_segments (s : string) :
  Js.split "/" s <> [] /\ Forall (fun seg => noSlash seg = true) (Js.split "/" s).
Proof.
  induction s as [|c s [Hne IH]]; cbn [Js.split].
  - split; [discriminate|]. repeat constructor.
  - destruct (Ascii.eqb c "/") eqn:Hc.
    + split; [discriminate|]. constructor; [reflexivity|exact IH].
    + destruct (Js.split "/" s) as [|seg rest]; [contradiction|].
      split; [discriminate|].
      inversion IH as [|? ? Hseg Hrest]; subst.
      constructor; [|exact Hrest]. cbn [noSlash]. rewrite Hc, Hseg. reflexivity.
Qed.

Lemma split_single (s seg : string) : Js.split "/" s = [seg] -> s = seg.
Proof.
  revert seg. induction s as [|c s IH]; intros seg; cbn [Js.split].
  - intros H. injection H as <-. reflexivity.
  - pose proof (split_segments s) as [Hne _].
    destruct (Ascii.eqb c "/").
    + intros H. injection H as _ H. contradiction.
    + destruct (Js.split "/" s) as [|seg' rest]; [contradiction|].
      intros H. injection H as <- ->. rewrite (IH seg' eq_refl). reflexivity.
Qed.

Lemma last_Forall {A} (P : A -> Prop) (l : list A) (d : A) :
  l <> [] -> Forall P l -> P (last l d).
Proof.
  induction l as [|a l IH]; [contradiction|]. intros _ Hall.
  inversion Hall as [|? ? Ha Hl]; subst.
  destruct l as [|b l]; [exact Ha|]. apply IH; [discriminate|exact Hl].
Qed.

Lemma pop_split_suffix (s : string) :
  exists dir, s = (dir ++ Js.pop (Js.split "/" s))%string.
Proof.
  unfold Js.pop. induction s as [|c s [dir IH]]; cbn [Js.split].
  - exists EmptyString. reflexivity.
  - pose proof (split_segments s) as [Hne _].
    pose proof (split_single s) as Hsingle.
    destruct (Ascii.eqb c "/").
    + exists (String c dir).
      destruct (Js.split "/" s) as [|seg rest]; [contradiction|].
      cbn [append].
      change (last (EmptyString :: seg :: rest) EmptyString)
        with (last (seg :: rest) EmptyString).
      rewrite <- IH. reflexivity.
    + destruct (Js.split "/" s) as [|seg rest]; [contradiction|].
      destruct rest as [|seg' rest'].
      * exists EmptyString. cbn [last append]. rewrite (Hsingle seg eq_refl).
        reflexivity.
      * exists (String c dir). cbn [append].
        change (last (String c seg :: seg' :: rest') EmptyString)
          with (last (seg :: seg' :: rest') EmptyString).
        rewrite <- IH. reflexivity.
Qed.

Lemma find_only (type : string) (h : string -> list string) (base : string) :
  In type entryOrder ->
  (forall k, h k = if (type =? k)%string then [base] else []) ->
  find (fun k => Client.nonEmpty (h k)) entryOrder = Some type.
Proof.
  intros Hin Hh. unfold entryOrder in *. cbn [find].
  repeat rewrite Hh.
  cbn [In] in Hin.
  repeat (destruct Hin as [<-|Hin]; [reflexivity|]). contradiction.
Qed.

(** X6. With one file staged, the basic message is the file's category,
    a colon and the file's base name: the part of the path after its last
    slash, which contains no slash. *)
Theorem single_file_message (allUntracked : list string) (file : string) :
  Client.generateCommitMessage [file] allUntracked
  = (Client.categorize allUntracked file ++ ": " ++ Js.pop (Js.split "/" file))%string
  /\ noSlash (Js.pop (Js.split "/" file)) = true
  /\ exists dir, file = (dir ++ Js.pop (Js.split "/" file))%string.
Proof.
  set (base := Js.pop (Js.split "/" file)). split; [|split].
  - unfold Client.generateCommitMessage. cbn [List.length Nat.eqb].
    change Client.noCategories with (map (fun k => (k, @nil string)) entryOrder).
    rewrite categories_by_type. cbn [app]. rewrite firstNonEmpty_find.
    rewrite (find_only (Client.categorize allUntracked file) _ base).
    + rewrite entryMessage_truthy. unfold filesOfType, Client.entryMessage.
      cbn [filter]. rewrite String.eqb_refl. cbn. fold base.
      assert (Hnil : forall s : string, (s ++ "")%string = s).
      { intros s. induction s as [|x s IH]; cbn; [reflexivity|]. rewrite IH. reflexivity. }
      rewrite Hnil. reflexivity.
    + apply categorize_in_entryOrder.
    + intros k. unfold filesOfType. cbn [filter].
      destruct (Client.categorize allUntracked file =? k)%string; reflexivity.
  - subst base. unfold Js.pop.
    apply (last_Forall (fun seg => noSlash seg = true)); apply split_segments.
  - apply pop_split_suffix.
Qed.

(* ------------------------------------------------------------------ *)
(** ** Further properties: the listeners                               *)
(* ------------------------------------------------------------------ *)

Lemma neverThrows_bind {A B} (p : Prog A) (f : A -> Prog B) :
  neverThrows p -> (forall a, neverThrows (f a)) -> neverThrows (bind p f).
Proof.
  intros Hp Hf. induction p as [a|e|X a k IH|R c k IH]; cbn in *; auto.
Qed.

(** A program that never throws is not left failed by a run, and what it
    is suspended on never throws either. *)
Lemma run_neverThrows {E A} (p : Prog A) (w : World E) :
  neverThrows p ->
  match snd (run p w) with
  | Finished _ => True
  | Failed _ => False
  | Blocked c k => forall o, neverThrows (k o)
  end.
Proof.
  revert w. induction p as [a|e|X a k IH|R c k IH]; intros w Hp; cbn in *; auto.
  destruct (perform a w) as [x w1]. apply IH, Hp.
Qed.

Ltac never_throws :=
  repeat first
    [ exact Logic.I
    | intro
    | match goal with
      | |- neverThrows (if ?b then _ else _) => destruct b
      | |- neverThrows (match ?x with _ => _ end) => destruct x
      end
    | progress cbn ].

Lemma getHtmlContent_neverThrows : neverThrows _getHtmlContent.
Proof. unfold _getHtmlContent. cbv zeta. never_throws. Qed.

Lemma loadContent_neverThrows : neverThrows _loadContent.
Proof.
  unfold _loadContent.
  apply neverThrows_bind; [cbn; auto|]. intros self.
  destruct (negb (_view self)); [exact Logic.I|].
  destruct (negb (_isVisible self) && (0 <? _lastRefresh self)); [exact Logic.I|].
  apply neverThrows_bind; [cbn; auto|]. intros now.
  apply neverThrows_bind; [cbn; auto|]. intros _.
  apply neverThrows_bind; [apply getHtmlContent_neverThrows|].
  intros html. cbn. auto.
Qed.

(** X7. Loading the content never ends in a rejection, however the calls
    it awaits settle: every call is awaited inside the [try] block of
    [_getHtmlContent], whose [catch] does not look at what was thrown.
    So the public [refresh], the visibility listener, [resolveWebviewView]
    and the callback of the debounce timeout, none of which is awaited by
    its caller, leave no rejection behind. *)
Theorem loading_never_rejects :
  neverThrows _getHtmlContent
  /\ neverThrows _loadContent
  /\ neverThrows refresh
  /\ (forall visible, neverThrows (onDidChangeVisibility visible))
  /\ (forall visible, neverThrows (resolveWebviewView visible))
  /\ neverThrows refreshTimeoutCallback.
Proof.
  assert (Hrefresh : neverThrows refresh).
  { unfold refresh. apply neverThrows_bind; [cbn; auto|].
    intros _. apply loadContent_neverThrows. }
  split; [apply getHtmlContent_neverThrows|].
  split; [apply loadContent_neverThrows|].
  split; [exact Hrefresh|].
  repeat split.
  - intros visible. unfold onDidChangeVisibility.
    apply neverThrows_bind; [cbn; auto|]. intros _.
    apply neverThrows_bind; [cbn; auto|]. intros self.
    apply neverThrows_bind; [cbn; auto|]. intros now.
    destruct (_isVisible self && (2000 <? now - _lastRefresh self));
      [apply loadContent_neverThrows|exact Logic.I].
  - intros visible. unfold resolveWebviewView.
    do 3 (apply neverThrows_bind; [cbn; auto|]; intros _).
    apply neverThrows_bind; [cbn; auto|]. intros self.
    destruct (_isVisible self); [apply loadContent_neverThrows|exact Logic.I].
  - unfold refreshTimeoutCallback.
    apply neverThrows_bind; [cbn; auto|]. intros _.
    apply neverThrows_bind; [cbn; auto|]. intros self.
    destruct (_isVisible self); [exact Hrefresh|exact Logic.I].
Qed.

Section Handlers.

Variable fallback : GitStatus -> string.
Variable E : Type.
Variable respond : forall R, Call R -> E -> Outcome R * E.

(** X8. For each command whose handler starts with a backend call: when
    that call rejects with an error, the handler shows one error
    notification with the message of the error after ["GitShift: "], in a
    modal dialog for [push] and [commitAndPush] and in a plain one for the
    other commands, posts [clearAllLoading] and ends.  It issues no other
    call, does not refresh, and leaves the provider's fields as they
    were. *)
Theorem first_call_rejected
        (w : World E) (data : Msg.t) (c : Call unit) (modal : bool)
        (error : JsError) (e1 : E) :
  _view (provider w) = true ->
  firstBackendCall data = Some (c, modal) ->
  respond _ c (env w) = (Rejected error, e1) ->
  steps fallback respond [DidReceiveMessage data; Settle (List.length (tasks w))] w
  = {| provider := provider w; clock := clock w; sources := sources w;
       timers := timers w; timerSeq := timerSeq w; watching := watching w;
       workspace := workspace w;
       trace := trace w ++
                [Invoke c;
                 ShowErrorMessage ("GitShift: " ++ err_message error)%string modal;
                 PostMessage Post.clearAllLoading];
       tasks := tasks w ++ [None];
       env := e1 |}.
Proof.
  intros Hview Hfirst Hresp.
  destruct data; cbn in Hfirst; try discriminate;
    try (destruct (isBlank msg) eqn:Hblank; [discriminate|]);
    try (destruct (isBlank branchName) eqn:Hblank; [discriminate|]);
    injection Hfirst as <- <-;
    (advance ltac:(rewrite Hview;
                   unfold spawn, onDidReceiveMessage, _handleStageAll,
                     _handleStageFile, _handleUnstageFile, _handleCommit,
                     _handleCommitAndPush, _handlePush, _handlePull, _handleFetch,
                     _handleCreateBranch, _handleSwitchBranch;
                   try rewrite Hblank; cbn));
    (advance ltac:(erewrite settle_last; [ | reflexivity | cbn; exact Hresp ];
                   cbn; rewrite Hview; cbn));
    rewrite steps_nil; reflexivity.
Qed.

(** X9. A [deleteBranch] or [discard] command whose confirmation dialog
    is dismissed or answered with anything but the offered item ends
    there: the dialog is the only call issued, nothing is posted or
    rendered, and the provider's fields are untouched. *)
Theorem declined_confirmation_ends_handler
        (w : World E) (subject : string) (answer : option string) (e1 : E) :
  _view (provider w) = true ->
  (chose answer "Delete" = false ->
   respond _ (showWarningMessage ("Delete branch '" ++ subject ++ "'?") true ["Delete"%string])
           (env w) = (Resolved answer, e1) ->
   steps fallback respond
         [DidReceiveMessage (Msg.deleteBranch subject); Settle (List.length (tasks w))] w
   = {| provider := provider w; clock := clock w; sources := sources w;
        timers := timers w; timerSeq := timerSeq w; watching := watching w;
        workspace := workspace w;
        trace := trace w ++
                 [Invoke (showWarningMessage ("Delete branch '" ++ subject ++ "'?")
                                             true ["Delete"%string])];
        tasks := tasks w ++ [None];
        env := e1 |})
  /\ (chose answer "Discard" = false ->
      respond _ (showWarningMessage ("Discard changes in '" ++ subject ++ "'?") true
                                    ["Discard"%string])
              (env w) = (Resolved answer, e1) ->
      steps fallback respond
            [DidReceiveMessage (Msg.discard subject); Settle (List.length (tasks w))] w
      = {| provider := provider w; clock := clock w; sources := sources w;
           timers := timers w; timerSeq := timerSeq w; watching := watching w;
           workspace := workspace w;
           trace := trace w ++
                    [Invoke (showWarningMessage ("Discard changes in '" ++ subject ++ "'?")
                                                true ["Discard"%string])];
           tasks := tasks w ++ [None];
           env := e1 |}).
Proof.
  intros Hview. split; intros Hchose Hresp.
  - advance ltac:(rewrite Hview; unfold spawn, onDidReceiveMessage, _handleDeleteBranch; cbn).
    advance ltac:(erewrite settle_last; [ | reflexivity | cbn; exact Hresp ];
                  cbn; rewrite Hchose; cbn).
    rewrite steps_nil. reflexivity.
  - advance ltac:(rewrite Hview; unfold spawn, onDidReceiveMessage, _handleDiscard; cbn).
    advance ltac:(erewrite settle_last; [ | reflexivity | cbn; exact Hresp ];
                  cbn; rewrite Hchose; cbn).
    rewrite steps_nil. reflexivity.
Qed.

(** X10. A [createBranch] command with a blank name shows the warning and
    nothing else: no call is issued, and no message is posted to the page,
    not even one that clears a loading state.  A [commitAndPush] command
    with a blank message shows its warning and posts [clearLoading] for
    [commitPushBtn]; neither [commit] nor [push] is called. *)
Theorem blank_input_never_reaches_backend (w : World E) (text : string) :
  _view (provider w) = true ->
  Js.allWhiteSpace text = true ->
  step fallback respond (DidReceiveMessage (Msg.createBranch text)) w
  = log (ShowWarningMessage "Branch name cannot be empty") w
  /\ step fallback respond (DidReceiveMessage (Msg.commitAndPush text)) w
     = log (PostMessage (Post.clearLoading "commitPushBtn"))
         (log (ShowWarningMessage "Commit message cannot be empty") w).
Proof.
  intros Hview Hblank. unfold step. rewrite Hview.
  unfold spawn, onDidReceiveMessage, _handleCreateBranch, _handleCommitAndPush.
  rewrite isBlank_allWhiteSpace, Hblank. cbn. rewrite Hview. cbn.
  split; reflexivity.
Qed.

End Handlers.

(* ------------------------------------------------------------------ *)
(** ** Further properties: loading the content                         *)
(* ------------------------------------------------------------------ *)

Section Loading.

Variable fallback : GitStatus -> string.
Variable E : Type.
Variable respond : forall R, Call R -> E -> Outcome R * E.

(** X11. A change of visibility starts no load when the view becomes
    hidden, or becomes visible within 2000 ms of the last refresh: the
    listener records the visibility and does nothing else. *)
Theorem visibility_change_without_load (w : World E) (visible : bool) :
  _view (provider w) = true ->
  visible = false \/ clock w - _lastRefresh (provider w) <= 2000 ->
  step fallback respond (DidChangeVisibility visible) w
  = with_provider E (set_isVisible visible) w.
Proof.
  intros Hview Hcase. unfold step. rewrite Hview.
  unfold spawn, onDidChangeVisibility. cbn.
  assert (Hskip : visible && (2000 <? clock w - _lastRefresh (provider w)) = false).
  { destruct Hcase as [->|Hle]; [reflexivity|].
    apply andb_false_iff. right. apply Z.ltb_ge. exact Hle. }
  rewrite Hskip. cbn. reflexivity.
Qed.

(** X12. While the view is hidden after a first load, or not resolved at
    all, nothing is loaded: the public [refresh] only clears the cached
    status, the [refresh] command does that and posts [clearLoading] for
    [refreshBtn], and [loadMore] only raises the commit limit.  No call is
    issued and no page is rendered. *)
Theorem hidden_view_is_not_reloaded (w : World E) :
  _view (provider w) = false
  \/ (_isVisible (provider w) = false /\ 0 < _lastRefresh (provider w)) ->
  step fallback respond Refresh w = with_provider E (set_cachedStatus None) w
  /\ (_view (provider w) = true ->
      step fallback respond (DidReceiveMessage Msg.refresh) w
      = log (PostMessage (Post.clearLoading "refreshBtn"))
            (with_provider E (set_cachedStatus None) w)
      /\ step fallback respond (DidReceiveMessage Msg.loadMore) w
         = with_provider E (set_commitsLimit 50) w).
Proof.
  intros Hcase.
  assert (Hskip : negb (_view (provider w))
                  || negb (_isVisible (provider w)) && (0 <? _lastRefresh (provider w))
                  = true).
  { destruct Hcase as [->|[-> Hlt]]; [reflexivity|].
    apply Z.ltb_lt in Hlt. rewrite Hlt. apply orb_true_r. }
  split.
  - unfold step, spawn, refresh, _loadContent. cbn.
    destruct (negb (_view (provider w))); [reflexivity|].
    cbn in Hskip. rewrite Hskip. reflexivity.
  - intros Hview. rewrite Hview in Hskip. cbn in Hskip.
    unfold step. rewrite Hview.
    unfold spawn, onDidReceiveMessage, refresh, _handleLoadMore, _loadContent. cbn.
    rewrite Hview. cbn. rewrite Hskip. cbn. rewrite Hview. cbn.
    split; reflexivity.
Qed.


(** X14. A load started by [refresh] fails silently.  [refresh] empties
    the cache before it loads.  Outside a git repository, or when the
    repository check rejects, the page rendered is the one without a
    repository and no further call is issued.  When the status fetch
    rejects, the page is rendered without a status and without branches
    or commits, and the reads that would follow are not issued.  In both
    cases no notification is shown and the cache is left as [refresh]
    emptied it: the [catch] assigns nothing. *)
Theorem refresh_failures_are_silent
        (w : World E) (o1 : Outcome bool) (error : JsError) (e1 e2 : E) :
  _view (provider w) = true ->
  _isVisible (provider w) = true ->
  respond _ isGitRepository (env w) = (o1, e1) ->
  (o1 <> Resolved true ->
   steps fallback respond [Refresh; Settle (List.length (tasks w))] w
   = {| provider := set_lastRefresh (clock w) (set_cachedStatus None (provider w));
        clock := clock w; sources := sources w;
        timers := timers w; timerSeq := timerSeq w; watching := watching w;
        workspace := workspace w;
        trace := trace w ++
                 [Invoke isGitRepository;
                  SetHtml (ContentHtml
                             {| pg_isGitRepo := false; pg_status := None;
                                pg_localBranches := []; pg_remoteBranches := [];
                                pg_currentBranch := ""; pg_commits := [];
                                pg_activeTab := _activeTab (provider w) |})];
        tasks := tasks w ++ [None];
        env := e1 |})
  /\ (o1 = Resolved true ->
      respond _ getGitStatus e1 = (Rejected error, e2) ->
      steps fallback respond
            [Refresh; Settle (List.length (tasks w)); Settle (List.length (tasks w))] w
      = {| provider := set_lastRefresh (clock w) (set_cachedStatus None (provider w));
           clock := clock w; sources := sources w;
           timers := timers w; timerSeq := timerSeq w; watching := watching w;
           workspace := workspace w;
           trace := trace w ++
                    [Invoke isGitRepository; Invoke getGitStatus;
                     SetHtml (ContentHtml
                                {| pg_isGitRepo := true; pg_status := None;
                                   pg_localBranches := []; pg_remoteBranches := [];
                                   pg_currentBranch := ""; pg_commits := [];
                                   pg_activeTab := _activeTab (provider w) |})];
           tasks := tasks w ++ [None];
           env := e2 |}).
Proof.
  intros Hview Hvis Hrepo. split.
  - intros Hno.
    advance ltac:(unfold spawn, refresh, _loadContent; cbn; rewrite Hview; cbn;
                  rewrite Hvis; cbn).
    advance ltac:(erewrite settle_last; [ | reflexivity | cbn; exact Hrepo ];
                  destruct o1 as [[|]|error1]; [contradiction Hno; reflexivity| |]; cbn).
    rewrite steps_nil. reflexivity.
  - intros -> Hstatus.
    advance ltac:(unfold spawn, refresh, _loadContent; cbn; rewrite Hview; cbn;
                  rewrite Hvis; cbn).
    advance ltac:(erewrite settle_last; [ | reflexivity | cbn; exact Hrepo ]; cbn).
    advance ltac:(erewrite settle_last; [ | reflexivity | cbn; exact Hstatus ]; cbn).
    rewrite steps_nil. reflexivity.
Qed.

(** A load that [refresh] did not start leaves the cache alone when its
    status fetch is rejected: the snapshot of the first load is still
    cached after the page was rendered without a status. *)
Lemma rejected_fetch_keeps_old_snapshot :
  _cachedStatus (provider (Scenario.loaded [Script.ok; Script.fails "index locked"]))
  = Some Scenario.s0
  /\ since (Scenario.loaded [Script.ok; Script.fails "index locked"]) staleFetchFailed
     = [Invoke isGitRepository; Invoke getGitStatus;
        SetHtml (ContentHtml
                   {| pg_isGitRepo := true; pg_status := None;
                      pg_localBranches := []; pg_remoteBranches := [];
                      pg_currentBranch := ""; pg_commits := [];
                      pg_activeTab := "changes" |})]
  /\ _cachedStatus (provider staleFetchFailed) = Some Scenario.s0.
Proof. repeat split; vm_compute; reflexivity. Qed.

(** X15. The debounce timeout firing while the view is visible clears the
    cached status and starts a load at the due time of the timeout: the
    timeout is no longer pending, [_lastRefresh] is the due time, and the
    repository check is the call issued. *)
Theorem tick_fires_visible (w : World E) (id : nat) (due T : Z) :
  timers w = [(id, due)] -> clock w <= due <= T ->
  _view (provider w) = true ->
  _isVisible (provider w) = true ->
  provider (tick T w) = set_lastRefresh due (set_cachedStatus None (provider w))
  /\ trace (tick T w) = trace w ++ [TimeoutFired id due; Invoke isGitRepository]
  /\ timers (tick T w) = []
  /\ clock (tick T w) = T
  /\ List.length (tasks (tick T w)) = S (List.length (tasks w)).
Proof.
  intros Htm Ht Hview Hvis. rewrite (tick_fires E w id due T Htm Ht).
  unfold spawn, refreshTimeoutCallback, refresh, _loadContent. cbn.
  rewrite Hvis. cbn. rewrite Hview. cbn. rewrite Hvis. cbn.
  repeat split; try reflexivity.
  - rewrite <- app_assoc. reflexivity.
  - rewrite length_app. cbn. lia.
Qed.

(** X16. In every reachable state, disposing of the provider leaves no
    timeout pending, so that no debounced invalidation runs afterwards,
    however much time passes; disposal shows and posts nothing, and a
    watcher that the provider holds is no longer live. *)
Theorem dispose_cancels_pending_refresh
        (workspaceFolders : bool) (e : E) (evs : list Event) (T : Z) :
  timers (step fallback respond Dispose
            (steps fallback respond evs (initial workspaceFolders e))) = []
  /\ trace (steps fallback respond [Dispose; Tick T]
              (steps fallback respond evs (initial workspaceFolders e)))
     = trace (steps fallback respond evs (initial workspaceFolders e))
  /\ provider (steps fallback respond [Dispose; Tick T]
                 (steps fallback respond evs (initial workspaceFolders e)))
     = provider (steps fallback respond evs (initial workspaceFolders e))
  /\ (_fileWatcher (provider (steps fallback respond evs (initial workspaceFolders e)))
      = true ->
      watching (step fallback respond Dispose
                  (steps fallback respond evs (initial workspaceFolders e))) = false).
Proof.
  pose proof (reachable_tracked fallback E respond workspaceFolders e evs) as Htr.
  set (w := steps fallback respond evs (initial workspaceFolders e)) in *.
  assert (Hd : step fallback respond Dispose w
               = with_timers E (fun _ => [])
                   (if _fileWatcher (provider w) then with_watching E false w else w)).
  { unfold step, spawn, dispose. cbn.
    destruct (_refreshTimeout (provider w)) as [id|] eqn:Hrt.
    - pose proof (tracked_cleared E w id Htr Hrt) as Hnone.
      destruct (_fileWatcher (provider w)); cbn;
        apply world_eq; cbn; try reflexivity; exact Hnone.
    - pose proof (tracked_none E w Htr Hrt) as Hnone.
      destruct (_fileWatcher (provider w)); cbn;
        apply world_eq; cbn; try reflexivity; exact Hnone. }
  assert (Htick : tick T (step fallback respond Dispose w)
                  = if T <? clock w then step fallback respond Dispose w
                    else with_clock E T (step fallback respond Dispose w)).
  { rewrite Hd. unfold tick. destruct (_fileWatcher (provider w)); reflexivity. }
  repeat split.
  - rewrite Hd. reflexivity.
  - rewrite steps_cons, steps_cons, steps_nil. unfold step at 1. rewrite Htick, Hd.
    destruct (T <? clock w), (_fileWatcher (provider w)); reflexivity.
  - rewrite steps_cons, steps_cons, steps_nil. unfold step at 1. rewrite Htick, Hd.
    destruct (T <? clock w), (_fileWatcher (provider w)); reflexivity.
  - intros Hfw. rewrite Hd, Hfw. reflexivity.
Qed.

End Loading.

(* ------------------------------------------------------------------ *)
(** ** Further properties: generating a commit message                 *)
(* ------------------------------------------------------------------ *)

Section GenerationFlows.

Variable fallback : GitStatus -> string.
Variable E : Type.
Variable respond : forall R, Call R -> E -> Outcome R * E.




End GenerationFlows.

(* ------------------------------------------------------------------ *)
(** ** Further properties: a command that succeeds                     *)
(* ------------------------------------------------------------------ *)

Section Success.

Variable fallback : GitStatus -> string.
Variable E : Type.
Variable respond : forall R, Call R -> E -> Outcome R * E.


(** X22. A view resolved while hidden shows the loading page and fetches
    nothing; the first time it becomes visible, more than 2000 ms after
    time zero, the load starts. *)
Theorem hidden_at_startup_loads_when_shown (w : World E) :
  _lastRefresh (provider w) = 0 ->
  2000 < clock w ->
  trace (step fallback respond (ResolveWebviewView false) w)
  = trace w ++ [SetHtml LoadingHtml]
  /\ tasks (step fallback respond (ResolveWebviewView false) w) = tasks w
  /\ trace (steps fallback respond
              [ResolveWebviewView false; DidChangeVisibility true] w)
     = trace w ++ [SetHtml LoadingHtml; Invoke isGitRepository]
  /\ _lastRefresh (provider (steps fallback respond
                               [ResolveWebviewView false; DidChangeVisibility true] w))
     = clock w.
Proof.
  intros Hlr Hclk.
  assert (Hlt : (2000 <? clock w - 0) = true) by (apply Z.ltb_lt; lia).
  rewrite steps_cons, steps_cons, steps_nil.
  unfold step, spawn, resolveWebviewView, onDidChangeVisibility, _loadContent. cbn.
  rewrite Hlr, Hlt. cbn. rewrite <- app_assoc. repeat split; reflexivity.
Qed.

End Success.

(* ------------------------------------------------------------------ *)
(** ** The further properties at sample inputs                         *)
(* ------------------------------------------------------------------ *)

Lemma clearAllLoading_clears_listed_only_at_sample :
  In "pushBtn"%string Client.clearAllIds
  /\ Client.hasElement
       (Client.document (fst (Client.pushWithLoading (fst Scenario.branchClicked))))
       "pushBtn" = true
  /\ Client.isLoading (fst (Client.pushWithLoading (fst Scenario.branchClicked)))
                      "pushBtn" = true
  /\ Client.isLoading
       (Client.onMessage Post.clearAllLoading
          (fst (Client.pushWithLoading (fst Scenario.branchClicked))))
       "pushBtn" = false.
Proof.
  assert (Hin : In "pushBtn"%string Client.clearAllIds) by (left; reflexivity).
  split; [exact Hin|].
  split; [vm_compute; reflexivity|].
  split; [vm_compute; reflexivity|].
  exact (proj1 (proj2 (clearAllLoading_clears_listed_only
                         (fst (Client.pushWithLoading (fst Scenario.branchClicked)))
                         "pushBtn")) Hin eq_refl).
Defined.


Lemma feature_row_unique (b' : Branch) :
  In b' Scenario.localBranches ->
  Js.dashed (name b') = Js.dashed "feature" ->
  b' = {| name := "feature"; current := false; remote := false |}.
Proof.
  intros [<-|[<-|[]]] Hname; [discriminate Hname|reflexivity].
Defined.

Lemma switchToBranch_marks_first_row_with_id_at_sample :
  Client.document Scenario.page
  = ContentHtml {| pg_isGitRepo := true; pg_status := Some Scenario.s0;
                   pg_localBranches := Scenario.localBranches;
                   pg_remoteBranches := []; pg_currentBranch := "main";
                   pg_commits := []; pg_activeTab := "changes" |}
  /\ In {| name := "feature"; current := false; remote := false |}
        Scenario.localBranches
  /\ snd (Client.switchToBranchWithLoading "feature" Scenario.page)
     = [Msg.switchBranch "feature"]
  /\ Client.isLoading (fst (Client.switchToBranchWithLoading "feature" Scenario.page))
                      "branch-feature" = true
  /\ branchRow {| pg_isGitRepo := true; pg_status := Some Scenario.s0;
                  pg_localBranches := Scenario.localBranches;
                  pg_remoteBranches := []; pg_currentBranch := "main";
                  pg_commits := []; pg_activeTab := "changes" |}
               "branch-feature"
     = Some {| name := "feature"; current := false; remote := false |}.
Proof.
  assert (Hin : In {| name := "feature"; current := false; remote := false |}
                   Scenario.localBranches) by (right; left; reflexivity).
  pose proof (switchToBranch_marks_first_row_with_id Scenario.page
                {| pg_isGitRepo := true; pg_status := Some Scenario.s0;
                   pg_localBranches := Scenario.localBranches;
                   pg_remoteBranches := []; pg_currentBranch := "main";
                   pg_commits := []; pg_activeTab := "changes" |}
                {| name := "feature"; current := false; remote := false |}
                eq_refl eq_refl Hin)
    as (Hposted & Hloading & _ & Hrow).
  split; [vm_compute; reflexivity|].
  split; [exact Hin|].
  split; [exact Hposted|].
  split; [exact Hloading|].
  exact (Hrow feature_row_unique).
Defined.

Lemma newness_decides_feat_fix_refactor_at_sample :
  Js.includes [] "lib/app.ts" = false
  /\ Client.categorize [] "lib/app.ts" <> "feat"%string
  /\ Client.categorize [] "lib/app.ts" <> "refactor"%string
  /\ Js.includes ["lib/app.ts"%string] "lib/app.ts" = true
  /\ Client.categorize ["lib/app.ts"%string] "lib/app.ts" <> "fix"%string.
Proof.
  split; [reflexivity|].
  split; [exact (proj1 (proj1 (newness_decides_feat_fix_refactor [] "lib/app.ts")
                          eq_refl))|].
  split; [exact (proj2 (proj1 (newness_decides_feat_fix_refactor [] "lib/app.ts")
                          eq_refl))|].
  split; [reflexivity|].
  exact (proj2 (newness_decides_feat_fix_refactor ["lib/app.ts"%string] "lib/app.ts")
           eq_refl).
Defined.

Lemma first_call_rejected_at_sample :
  _view (provider Scenario.offline) = true
  /\ firstBackendCall Msg.push = Some (push, true)
  /\ Repo.respond _ push (env Scenario.offline)
     = (Rejected Repo.unreachable, env Scenario.offline)
  /\ (let w := Scenario.offline in
      steps Script.fallback Repo.respond
            [DidReceiveMessage Msg.push; Settle (List.length (tasks w))] w
      = {| provider := provider w; clock := clock w; sources := sources w;
           timers := timers w; timerSeq := timerSeq w; watching := watching w;
           workspace := workspace w;
           trace := trace w ++
                    [Invoke push;
                     ShowErrorMessage "GitShift: could not reach remote" true;
                     PostMessage Post.clearAllLoading];
           tasks := tasks w ++ [None];
           env := env Scenario.offline |})
  /\ _view (provider Scenario.beforeCheckout) = true
  /\ firstBackendCall (Msg.switchBranch "feature")
     = Some (checkoutBranch "feature", false)
  /\ Script.respond _ (checkoutBranch "feature") (env Scenario.beforeCheckout)
     = (Rejected {| err_name := "Error";
                    err_message := "pathspec 'feature' did not match";
                    err_isLM := false |}, [])
  /\ (let w := Scenario.beforeCheckout in
      steps Script.fallback Script.respond
            [DidReceiveMessage (Msg.switchBranch "feature");
             Settle (List.length (tasks w))] w
      = {| provider := provider w; clock := clock w; sources := sources w;
           timers := timers w; timerSeq := timerSeq w; watching := watching w;
           workspace := workspace w;
           trace := trace w ++
                    [Invoke (checkoutBranch "feature");
                     ShowErrorMessage "GitShift: pathspec 'feature' did not match" false;
                     PostMessage Post.clearAllLoading];
           tasks := tasks w ++ [None];
           env := [] |}).
Proof.
  split; [vm_compute; reflexivity|].
  split; [reflexivity|].
  split; [vm_compute; reflexivity|].
  split.
  - apply (first_call_rejected Script.fallback Repo.t Repo.respond
             Scenario.offline Msg.push push true Repo.unreachable
             (env Scenario.offline));
      vm_compute; reflexivity.
  - split; [vm_compute; reflexivity|].
    split; [reflexivity|].
    split; [vm_compute; reflexivity|].
    apply (first_call_rejected Script.fallback Script.t Script.respond
             Scenario.beforeCheckout (Msg.switchBranch "feature")
             (checkoutBranch "feature") false
             {| err_name := "Error"; err_message := "pathspec 'feature' did not match";
                err_isLM := false |}
             []);
      vm_compute; reflexivity.
Defined.

Lemma declined_confirmation_ends_handler_at_sample :
  _view (provider (Scenario.loaded [])) = true
  /\ chose None "Delete" = false
  /\ chose None "Discard" = false
  /\ Script.respond _ (showWarningMessage "Delete branch 'feature'?" true ["Delete"%string])
                    (env (Scenario.loaded [])) = (Resolved None, [])
  /\ Script.respond _ (showWarningMessage "Discard changes in 'src/app.ts'?" true
                                          ["Discard"%string])
                    (env (Scenario.loaded [])) = (Resolved None, [])
  /\ (let w := Scenario.loaded [] in
      steps Script.fallback Script.respond
            [DidReceiveMessage (Msg.deleteBranch "feature");
             Settle (List.length (tasks w))] w
      = {| provider := provider w; clock := clock w; sources := sources w;
           timers := timers w; timerSeq := timerSeq w; watching := watching w;
           workspace := workspace w;
           trace := trace w ++
                    [Invoke (showWarningMessage "Delete branch 'feature'?" true
                                                ["Delete"%string])];
           tasks := tasks w ++ [None];
           env := [] |})
  /\ (let w := Scenario.loaded [] in
      steps Script.fallback Script.respond
            [DidReceiveMessage (Msg.discard "src/app.ts");
             Settle (List.length (tasks w))] w
      = {| provider := provider w; clock := clock w; sources := sources w;
           timers := timers w; timerSeq := timerSeq w; watching := watching w;
           workspace := workspace w;
           trace := trace w ++
                    [Invoke (showWarningMessage "Discard changes in 'src/app.ts'?" true
                                                ["Discard"%string])];
           tasks := tasks w ++ [None];
           env := [] |}).
Proof.
  split; [vm_compute; reflexivity|].
  split; [reflexivity|].
  split; [reflexivity|].
  split; [vm_compute; reflexivity|].
  split; [vm_compute; reflexivity|].
  split.
  - exact (proj1 (declined_confirmation_ends_handler Script.fallback Script.t
                    Script.respond (Scenario.loaded []) "feature" None [] eq_refl)
             eq_refl eq_refl).
  - exact (proj2 (declined_confirmation_ends_handler Script.fallback Script.t
                    Script.respond (Scenario.loaded []) "src/app.ts" None [] eq_refl)
             eq_refl eq_refl).
Defined.

Lemma blank_input_never_reaches_backend_at_sample :
  _view (provider (Scenario.loaded [])) = true
  /\ Js.allWhiteSpace "  " = true
  /\ Script.step (DidReceiveMessage (Msg.createBranch "  ")) (Scenario.loaded [])
     = log (ShowWarningMessage "Branch name cannot be empty") (Scenario.loaded [])
  /\ Script.step (DidReceiveMessage (Msg.commitAndPush "  ")) (Scenario.loaded [])
     = log (PostMessage (Post.clearLoading "commitPushBtn"))
         (log (ShowWarningMessage "Commit message cannot be empty") (Scenario.loaded [])).
Proof.
  split; [vm_compute; reflexivity|].
  split; [reflexivity|].
  exact (blank_input_never_reaches_backend Script.fallback Script.t Script.respond
           (Scenario.loaded []) "  " eq_refl eq_refl).
Defined.

Lemma shown_recently :
  clock (Script.step (Tick 1000500) (Scenario.loaded []))
  - _lastRefresh (provider (Script.step (Tick 1000500) (Scenario.loaded []))) <= 2000.
Proof. vm_compute. discriminate. Defined.

Lemma visibility_change_without_load_at_sample :
  _view (provider (Script.step (Tick 1000500) (Scenario.loaded []))) = true
  /\ clock (Script.step (Tick 1000500) (Scenario.loaded []))
     - _lastRefresh (provider (Script.step (Tick 1000500) (Scenario.loaded []))) <= 2000
  /\ Script.step (DidChangeVisibility true)
       (Script.step (Tick 1000500) (Scenario.loaded []))
     = with_provider Script.t (set_isVisible true)
         (Script.step (Tick 1000500) (Scenario.loaded [])).
Proof.
  split; [vm_compute; reflexivity|].
  split; [exact shown_recently|].
  apply (visibility_change_without_load Script.fallback Script.t Script.respond
           (Script.step (Tick 1000500) (Scenario.loaded [])) true);
    [vm_compute; reflexivity | right; exact shown_recently].
Defined.

Lemma hidden_view_is_not_reloaded_at_sample :
  _view (provider (Script.step (DidChangeVisibility false) (Scenario.loaded []))) = true
  /\ _isVisible (provider (Script.step (DidChangeVisibility false) (Scenario.loaded [])))
     = false
  /\ 0 < _lastRefresh (provider (Script.step (DidChangeVisibility false)
                                   (Scenario.loaded [])))
  /\ (let w := Script.step (DidChangeVisibility false) (Scenario.loaded []) in
      Script.step Refresh w = with_provider Script.t (set_cachedStatus None) w
      /\ Script.step (DidReceiveMessage Msg.refresh) w
         = log (PostMessage (Post.clearLoading "refreshBtn"))
               (with_provider Script.t (set_cachedStatus None) w)
      /\ Script.step (DidReceiveMessage Msg.loadMore) w
         = with_provider Script.t (set_commitsLimit 50) w).
Proof.
  split; [vm_compute; reflexivity|].
  split; [vm_compute; reflexivity|].
  split; [reflexivity|].
  split.
  - exact (proj1 (hidden_view_is_not_reloaded Script.fallback Script.t Script.respond
                    (Script.step (DidChangeVisibility false) (Scenario.loaded []))
                    (or_intror (conj eq_refl eq_refl)))).
  - exact (proj2 (hidden_view_is_not_reloaded Script.fallback Script.t Script.respond
                    (Script.step (DidChangeVisibility false) (Scenario.loaded []))
                    (or_intror (conj eq_refl eq_refl)))
             eq_refl).
Defined.


Lemma refresh_failures_are_silent_at_sample :
  _view (provider (Scenario.loaded [Script.fails "not a git repository"])) = true
  /\ _isVisible (provider (Scenario.loaded [Script.fails "not a git repository"])) = true
  /\ Script.respond _ isGitRepository
       (env (Scenario.loaded [Script.fails "not a git repository"]))
     = (Script.fails "not a git repository" _ isGitRepository, [])
  /\ Script.fails "not a git repository" _ isGitRepository <> Resolved true
  /\ (let w := Scenario.loaded [Script.fails "not a git repository"] in
      steps Script.fallback Script.respond [Refresh; Settle (List.length (tasks w))] w
      = {| provider := set_lastRefresh (clock w) (set_cachedStatus None (provider w));
           clock := clock w; sources := sources w;
           timers := timers w; timerSeq := timerSeq w; watching := watching w;
           workspace := workspace w;
           trace := trace w ++
                    [Invoke isGitRepository;
                     SetHtml (ContentHtml
                                {| pg_isGitRepo := false; pg_status := None;
                                   pg_localBranches := []; pg_remoteBranches := [];
                                   pg_currentBranch := ""; pg_commits := [];
                                   pg_activeTab := _activeTab (provider w) |})];
           tasks := tasks w ++ [None];
           env := [] |})
  /\ _view (provider (Scenario.loaded [Script.ok; Script.fails "index locked"])) = true
  /\ _isVisible (provider (Scenario.loaded [Script.ok; Script.fails "index locked"]))
     = true
  /\ Script.respond _ isGitRepository
       (env (Scenario.loaded [Script.ok; Script.fails "index locked"]))
     = (Resolved true, [Script.fails "index locked"])
  /\ Script.respond _ getGitStatus [Script.fails "index locked"]
     = (Rejected {| err_name := "Error"; err_message := "index locked";
                    err_isLM := false |}, [])
  /\ (let w := Scenario.loaded [Script.ok; Script.fails "index locked"] in
      steps Script.fallback Script.respond
            [Refresh; Settle (List.length (tasks w)); Settle (List.length (tasks w))] w
      = {| provider := set_lastRefresh (clock w) (set_cachedStatus None (provider w));
           clock := clock w; sources := sources w;
           timers := timers w; timerSeq := timerSeq w; watching := watching w;
           workspace := workspace w;
           trace := trace w ++
                    [Invoke isGitRepository; Invoke getGitStatus;
                     SetHtml (ContentHtml
                                {| pg_isGitRepo := true; pg_status := None;
                                   pg_localBranches := []; pg_remoteBranches := [];
                                   pg_currentBranch := ""; pg_commits := [];
                                   pg_activeTab := _activeTab (provider w) |})];
           tasks := tasks w ++ [None];
           env := [] |}).
Proof.
  split; [vm_compute; reflexivity|].
  split; [vm_compute; reflexivity|].
  split; [vm_compute; reflexivity|].
  split; [discriminate|].
  split.
  - refine (proj1 (refresh_failures_are_silent Script.fallback Script.t Script.respond
                     (Scenario.loaded [Script.fails "not a git repository"])
                     (Script.fails "not a git repository" _ isGitRepository)
                     {| err_name := "Error"; err_message := "none"; err_isLM := false |}
                     [] [] _ _ _) _);
      [vm_compute; reflexivity | vm_compute; reflexivity | vm_compute; reflexivity
      | discriminate].
  - split; [vm_compute; reflexivity|].
    split; [vm_compute; reflexivity|].
    split; [vm_compute; reflexivity|].
    split; [vm_compute; reflexivity|].
    refine (proj2 (refresh_failures_are_silent Script.fallback Script.t Script.respond
                     (Scenario.loaded [Script.ok; Script.fails "index locked"])
                     (Resolved true)
                     {| err_name := "Error"; err_message := "index locked";
                        err_isLM := false |}
                     [Script.fails "index locked"] [] _ _ _) _ _);
      vm_compute; reflexivity.
Defined.

Lemma timeout_due :
  clock (Script.steps [Tick 1000100; FileChanged] (Scenario.loaded []))
  <= 1001100 <= 1002000.
Proof. split; vm_compute; discriminate. Defined.

Lemma tick_fires_visible_at_sample :
  timers (Script.steps [Tick 1000100; FileChanged] (Scenario.loaded []))
  = [(0%nat, 1001100)]
  /\ clock (Script.steps [Tick 1000100; FileChanged] (Scenario.loaded []))
     <= 1001100 <= 1002000
  /\ _view (provider (Script.steps [Tick 1000100; FileChanged] (Scenario.loaded [])))
     = true
  /\ _isVisible (provider (Script.steps [Tick 1000100; FileChanged] (Scenario.loaded [])))
     = true
  /\ (let w := Script.steps [Tick 1000100; FileChanged] (Scenario.loaded []) in
      provider (tick 1002000 w)
      = set_lastRefresh 1001100 (set_cachedStatus None (provider w))
      /\ trace (tick 1002000 w)
         = trace w ++ [TimeoutFired 0 1001100; Invoke isGitRepository]
      /\ timers (tick 1002000 w) = []
      /\ clock (tick 1002000 w) = 1002000
      /\ List.length (tasks (tick 1002000 w)) = S (List.length (tasks w))).
Proof.
  split; [vm_compute; reflexivity|].
  split; [exact timeout_due|].
  split; [vm_compute; reflexivity|].
  split; [vm_compute; reflexivity|].
  apply (tick_fires_visible Script.t
           (Script.steps [Tick 1000100; FileChanged] (Scenario.loaded []))
           0%nat 1001100 1002000);
    [vm_compute; reflexivity | exact timeout_due
    | vm_compute; reflexivity | vm_compute; reflexivity].
Defined.

Lemma dispose_cancels_pending_refresh_at_sample :
  _fileWatcher
    (provider (steps Script.fallback Script.respond
                 [StartFileWatcher; Tick 5000; FileChanged]
                 (initial true ([] : Script.t)))) = true
  /\ timers (steps Script.fallback Script.respond
               [StartFileWatcher; Tick 5000; FileChanged]
               (initial true ([] : Script.t))) = [(0%nat, 6000)]
  /\ watching
       (step Script.fallback Script.respond Dispose
          (steps Script.fallback Script.respond
             [StartFileWatcher; Tick 5000; FileChanged]
             (initial true ([] : Script.t)))) = false.
Proof.
  split; [vm_compute; reflexivity|].
  split; [vm_compute; reflexivity|].
  apply (proj2 (proj2 (proj2
           (dispose_cancels_pending_refresh Script.fallback Script.t Script.respond
              true [] [StartFileWatcher; Tick 5000; FileChanged] 7000)))).
  vm_compute; reflexivity.
Defined.





Lemma hidden_at_startup_loads_when_shown_at_sample :
  _lastRefresh (provider (Script.step (Tick 5000) (initial true []))) = 0
  /\ 2000 < clock (Script.step (Tick 5000) (initial true []))
  /\ (let w := Script.step (Tick 5000) (initial true []) in
      trace (step Script.fallback Script.respond (ResolveWebviewView false) w)
      = trace w ++ [SetHtml LoadingHtml]
      /\ tasks (step Script.fallback Script.respond (ResolveWebviewView false) w)
         = tasks w
      /\ trace (steps Script.fallback Script.respond
                  [ResolveWebviewView false; DidChangeVisibility true] w)
         = trace w ++ [SetHtml LoadingHtml; Invoke isGitRepository]
      /\ _lastRefresh (provider (steps Script.fallback Script.respond
                                   [ResolveWebviewView false; DidChangeVisibility true] w))
         = clock w).
Proof.
  split; [vm_compute; reflexivity|].
  split; [vm_compute; reflexivity|].
  apply (hidden_at_startup_loads_when_shown Script.fallback Script.t Script.respond
           (Script.step (Tick 5000) (initial true [])));
    vm_compute; reflexivity.
Defined.
